(** * The Pub/Sub worker of the agentic starter kit (src/functions/worker.ts)

    A shallow embedding of [decode], [runAgent], [postGitHub] and the
    [worker] cloud-event handler, with the properties of the task execution
    core stated over it.

    The handler is effectful: it reads the process environment, creates a
    directory, spawns a process, arms a timer, reacts to the callbacks of the
    child process and calls HTTP sinks.  The embedding threads an explicit
    state (the trace of effects performed so far and the number of UUIDs
    drawn), and reads everything the outside decides from a [world] record.
    The cold-start check of lines 11-22 runs once when the module is loaded,
    before any invocation, and is not part of the handler.

    Strings: a character of a Rocq [string] stands for one UTF-16 code unit of
    the JavaScript string; lengths and indices are counted in [N] / [Z]. *)

From Stdlib Require Import String Ascii List ZArith NArith Bool Lia.
From Stdlib Require Import DecimalString DecimalZ.
Import ListNotations.

Local Open Scope list_scope.
Local Open Scope string_scope.

Set Warnings "-register-all".

(** ** JavaScript values, as far as a parsed JSON payload can hold them *)

Module JS.

(** Numbers are the integers; a payload with a fractional literal is outside
    this model.  [VUndefined] is what reading a missing property gives. *)
Inductive value : Type :=
| VUndefined
| VNull
| VBool (b : bool)
| VNum (n : Z)
| VStr (s : string)
| VArr (items : list value)
| VObj (fields : list (string * value)).

(** Exceptions the handler can raise or let through. *)
Inductive exn : Type :=
| Error (message : string)          (* new Error(message) *)
| TypeError (what : string)         (* reading a property of null/undefined,
                                       calling something that is no function *)
| SyntaxError                       (* JSON.parse *)
| SystemError (errno : string)      (* fs, child_process *)
| FetchError (reason : string).     (* node-fetch: the request did not complete *)

(** [v == null], the test behind [??] and [?.]. *)
Definition nullish (v : value) : bool :=
  match v with
  | VUndefined | VNull => true
  | _ => false
  end.

(** ToBoolean, the test behind [||] and [!]. *)
Definition truthy (v : value) : bool :=
  match v with
  | VUndefined | VNull => false
  | VBool b => b
  | VNum n => negb (n =? 0)%Z
  | VStr s => negb (s =? "")
  | VArr _ | VObj _ => true
  end.

Fixpoint lookup (k : string) (fields : list (string * value)) : option value :=
  match fields with
  | [] => None
  | (k', v) :: rest => if k' =? k then Some v else lookup k rest
  end.

(** [v.k] for a [v] that is neither null nor undefined.  The handler reads
    only the names correlation_id, timeouts, hard_seconds, agent, name, reply,
    type, targets, response_url, repo, pr and token; none of them is a
    built-in property of a string, number, boolean or array, so reading them
    off such a value gives undefined.  JSON.parse yields objects with distinct
    keys, so the first binding is the only one. *)
Definition prop (v : value) (k : string) : value :=
  match v with
  | VObj fields =>
      match lookup k fields with
      | Some x => x
      | None => VUndefined
      end
  | _ => VUndefined
  end.

(** [v?.k] *)
Definition opt_prop (v : value) (k : string) : value :=
  if nullish v then VUndefined else prop v k.

(** [a ?? b] *)
Definition coalesce (a b : value) : value :=
  if nullish a then b else a.

Definition string_of_Z (n : Z) : string :=
  NilEmpty.string_of_int (Z.to_int n).

(** The implicit conversion of [v], to a string in a template literal or to a
    number as an operand of [*], throws a TypeError: the conversion looks for
    a toString method, and an object parsed from JSON that has a key toString
    of its own hides the inherited method behind a value that is no function.
    An array is converted by joining its elements, each converted in turn. *)
Fixpoint conversion_throws (v : value) : bool :=
  match v with
  | VObj fields =>
      match lookup "toString" fields with
      | Some _ => true
      | None => false
      end
  | VArr items =>
      (fix any (l : list value) : bool :=
         match l with
         | [] => false
         | x :: rest => conversion_throws x || any rest
         end) items
  | _ => false
  end.

(** The integers a double holds exactly, up to 2^53 - 1 in absolute value. *)
Definition safe_integer (n : Z) : bool :=
  (Z.abs n <=? 9007199254740991)%Z.

(** The values [ToString] below renders as JavaScript does: the conversion
    does not throw, and every number rendered is a safe integer, which
    JavaScript prints by its decimal digits. *)
Fixpoint printable (v : value) : bool :=
  match v with
  | VNum n => safe_integer n
  | VObj fields =>
      match lookup "toString" fields with
      | Some _ => false
      | None => true
      end
  | VArr items =>
      (fix all (l : list value) : bool :=
         match l with
         | [] => true
         | x :: rest => printable x && all rest
         end) items
  | _ => true
  end.

(** ToString, as a template literal applies it to an interpolated value, for
    a [printable] value.  Outside that domain the function is not the
    conversion of JavaScript: where [conversion_throws] holds the template
    literal throws, and a number beyond the safe integers is printed by
    JavaScript from its shortest digits, in exponent form from 10^21 on. *)
Fixpoint ToString (v : value) : string :=
  match v with
  | VUndefined => "undefined"
  | VNull => "null"
  | VBool true => "true"
  | VBool false => "false"
  | VNum n => string_of_Z n
  | VStr s => s
  | VArr items =>
      (fix join (l : list value) : string :=
         match l with
         | [] => ""
         | x :: rest =>
             let here := if nullish x then "" else ToString x in
             match rest with
             | [] => here
             | _ :: _ => here ++ "," ++ join rest
             end
         end) items
  | VObj _ => "[object Object]"
  end.

(** [x * 1000] for the delay of the watchdog, where the model computes it:
    for an integer whose product with 1000 is a safe integer, so that the
    product of the doubles is exact, and for null, the booleans and the empty
    string.  [None] stands for every other product, which this model does not
    compute: NaN, a rounded product, or the coercion of a non-empty string or
    of an array.  Where [conversion_throws] holds the multiplication throws
    and there is no product at all. *)
Definition times_1000 (v : value) : option Z :=
  match v with
  | VNum n => if safe_integer (n * 1000) then Some (n * 1000)%Z else None
  | VNull => Some 0%Z
  | VBool true => Some 1000%Z
  | VBool false => Some 0%Z
  | VStr "" => Some 0%Z
  | _ => None
  end.

(** *** Strings *)

Fixpoint strlen (s : string) : N :=
  match s with
  | EmptyString => 0%N
  | String _ rest => N.succ (strlen rest)
  end.

Fixpoint take (n : N) (s : string) : string :=
  match s with
  | EmptyString => EmptyString
  | String c rest =>
      if (n =? 0)%N then EmptyString else String c (take (N.pred n) rest)
  end.

Fixpoint drop (n : N) (s : string) : string :=
  match s with
  | EmptyString => EmptyString
  | String _ rest => if (n =? 0)%N then s else drop (N.pred n) rest
  end.

(** How String.prototype.slice reads one of its indices: a negative index
    counts from the end, and the result is clamped to [0, len]. *)
Definition clamp_index (len : N) (i : Z) : N :=
  if (i <? 0)%Z then Z.to_N (Z.max (Z.of_N len + i) 0)
  else N.min (Z.to_N i) len.

(** [s.slice(from, to)] *)
Definition slice (s : string) (from to : Z) : string :=
  let len := strlen s in
  let a := clamp_index len from in
  let b := clamp_index len to in
  take (b - a) (drop a s).

(** [s.startsWith(p)] *)
Definition startsWith (s p : string) : bool := String.prefix p s.

End JS.

Import JS.

(** ** Effects, and what the outside world decides *)

Inductive signal : Type := SIGKILL.

(** The options object of a fetch call. *)
Record request : Type := {
  req_method : string;
  req_headers : list (string * string);
  req_body : string
}.

(** The options object of the spawn call (stdio is always
    ["ignore", "pipe", "pipe"] and is left out). *)
Record spawn_options : Type := {
  cwd : string;
  env : list (string * string);
  shell : bool;
  detached : bool
}.

(** One entry per call that reaches outside the handler, in the order the
    calls are made.  An entry records the call, whether or not it succeeds. *)
Inductive effect : Type :=
| Mkdir (path : string) (recursive : bool)          (* mkdirSync *)
| Spawn (file : string) (args : list value) (opts : spawn_options)
| SetTimeout (delay_ms : option Z)
| ClearTimeout
| ProcessKill (pid : option Z) (sig : signal)       (* process.kill; a negative
                                                       pid names a process group,
                                                       None is NaN *)
| ChildKill (sig : signal)                          (* proc.kill *)
| Fetch (url : value) (req : request).

(** A callback the event loop runs while the promise of runAgent is alive. *)
Inductive proc_event : Type :=
| StdoutData (chunk : string)
| StderrData (chunk : string)
| TimerFired
| Close (exit_code : option Z)    (* null when a signal ended the process *)
| ProcError (e : exn).

Inductive fetch_outcome : Type :=
| Response (status : Z)           (* the promise resolves, whatever the status *)
| NetworkError (e : exn).         (* the promise rejects *)

Record world : Type := {
  process_env : list (string * string);
  mkdir_error : option exn;               (* Some e: mkdirSync throws e *)
  proc_pid : option Z;                    (* proc.pid *)
  proc_events : list proc_event;
  group_kill_error : bool;                (* process.kill on the group throws *)
  fetch_result : value -> request -> fetch_outcome
}.

Fixpoint env_get (k : string) (e : list (string * string)) : option string :=
  match e with
  | [] => None
  | (k', v) :: rest => if k' =? k then Some v else env_get k rest
  end.

(** [{ ...e, k: v }] : an existing key keeps its place and takes the new
    value, a new key goes last. *)
Fixpoint env_set (k v : string) (e : list (string * string))
  : list (string * string) :=
  match e with
  | [] => [(k, v)]
  | (k', v') :: rest =>
      if k' =? k then (k, v) :: rest else (k', v') :: env_set k v rest
  end.

(** ** The monad of the handler: state, exceptions, and a promise that may
    never settle *)

Inductive outcome (A : Type) : Type :=
| Done (a : A)
| Threw (e : exn)
| Pending.

Arguments Done {A} a.
Arguments Threw {A} e.
Arguments Pending {A}.

Record wstate : Type := {
  trace : list effect;      (* oldest first *)
  uuid_calls : nat          (* how often crypto.randomUUID() was called *)
}.

Definition M (A : Type) : Type := wstate -> outcome A * wstate.

Definition ret {A} (a : A) : M A := fun st => (Done a, st).

Definition bind {A B} (c : M A) (k : A -> M B) : M B :=
  fun st =>
    match c st with
    | (Done a, st') => k a st'
    | (Threw e, st') => (Threw e, st')
    | (Pending, st') => (Pending, st')
    end.

Definition throw {A} (e : exn) : M A := fun st => (Threw e, st).

Definition lift {A} (o : outcome A) : M A := fun st => (o, st).

Definition emit (e : effect) : M unit :=
  fun st => (Done tt, {| trace := trace st ++ [e]; uuid_calls := uuid_calls st |}).

Definition emit_all (es : list effect) : M unit :=
  fun st => (Done tt, {| trace := trace st ++ es; uuid_calls := uuid_calls st |}).

Declare Scope worker_scope.
Delimit Scope worker_scope with worker.
Notation "x <- c ;; k" := (bind c (fun x => k))
  (at level 61, c at next level, right associativity) : worker_scope.
Notation "c ;; k" := (bind c (fun _ => k))
  (at level 61, right associativity) : worker_scope.
Local Open Scope worker_scope.

Definition initial : wstate := {| trace := []; uuid_calls := 0 |}.

(** [v.k], which throws on null and undefined. *)
Definition get (v : value) (k : string) : outcome value :=
  if nullish v
  then Threw (TypeError ("Cannot read properties of " ++ ToString v))
  else Done (prop v k).

(** ** The handler *)

Definition CURSOR_BIN : string := "cursor-agent".

(** [type PubSubEvent = { data?: { message?: { data?: string } } }] *)
Record PubSubMessage : Type := { payload : option string }.
Record PubSubData : Type := { message : option PubSubMessage }.
Record PubSubEvent : Type := { data : option PubSubData }.

(** What runAgent resolves with. *)
Record run_result : Type := {
  code : Z;
  stdout : string;
  stderr : string
}.

Inductive settlement : Type :=
| Resolved (r : run_result)
| Rejected (e : exn).

(** The variables the promise executor of runAgent closes over, the state of
    its timer and of its promise, and the calls made by its callbacks. *)
Record agent_state : Type := {
  out : string;
  err : string;
  timer_armed : bool;
  settled : option settlement;
  calls : list effect
}.

Definition call (e : effect) (s : agent_state) : agent_state :=
  {| out := out s; err := err s; timer_armed := timer_armed s;
     settled := settled s; calls := calls s ++ [e] |}.

(** resolve / reject: only the first settlement of a promise counts. *)
Definition settle (r : settlement) (s : agent_state) : agent_state :=
  {| out := out s; err := err s; timer_armed := timer_armed s;
     settled := match settled s with Some r0 => Some r0 | None => Some r end;
     calls := calls s |}.

Definition clearTimeout (s : agent_state) : agent_state :=
  let s' := call ClearTimeout s in
  {| out := out s'; err := err s'; timer_armed := false;
     settled := settled s'; calls := calls s' |}.

Definition timeout_message (hardSeconds : value) : string :=
  "cursor-agent exceeded " ++ ToString hardSeconds ++ "s hard timeout".

(** [process.kill(-proc.pid!, "SIGKILL")] throws when the pid is undefined
    (its negation is NaN) or when the world refuses the signal. *)
Definition group_kill_throws (w : world) : bool :=
  match proc_pid w with
  | None => true
  | Some _ => group_kill_error w
  end.

(** The callback of setTimeout, lines 59-68. *)
Definition on_timeout (w : world) (hardSeconds : value) (s : agent_state)
  : agent_state :=
  let s1 := call (ProcessKill (option_map Z.opp (proc_pid w)) SIGKILL) s in
  let s2 := if group_kill_throws w then call (ChildKill SIGKILL) s1 else s1 in
  settle (Rejected (Error (timeout_message hardSeconds))) s2.

(** [code ?? 1] *)
Definition exit_code_or_1 (c : option Z) : Z :=
  match c with
  | Some n => n
  | None => 1%Z
  end.

(** One callback, lines 56-78.  A timer that was cleared, or that has fired,
    does not run its callback. *)
Definition on_event (w : world) (hardSeconds : value) (s : agent_state)
  (e : proc_event) : agent_state :=
  match e with
  | StdoutData d =>
      {| out := out s ++ d; err := err s; timer_armed := timer_armed s;
         settled := settled s; calls := calls s |}
  | StderrData d =>
      {| out := out s; err := err s ++ d; timer_armed := timer_armed s;
         settled := settled s; calls := calls s |}
  | TimerFired =>
      if timer_armed s then
        on_timeout w hardSeconds
          {| out := out s; err := err s; timer_armed := false;
             settled := settled s; calls := calls s |}
      else s
  | Close c =>
      let s' := clearTimeout s in
      settle (Resolved {| code := exit_code_or_1 c;
                          stdout := out s'; stderr := err s' |}) s'
  | ProcError e =>
      settle (Rejected e) (clearTimeout s)
  end.

Definition event_loop (w : world) (hardSeconds : value)
  (s : agent_state) (events : list proc_event) : agent_state :=
  fold_left (on_event w hardSeconds) events s.

(** [`/tmp/${correlationId}`], line 36, for a [printable] identifier. *)
Definition sandbox_of (correlationId : value) : string :=
  "/tmp/" ++ ToString correlationId.

Definition spawn_opts (e : list (string * string)) (sandbox : string)
  : spawn_options :=
  {| cwd := sandbox;
     env := env_set "XDG_CONFIG_HOME" (sandbox ++ "/.config")
              (env_set "XDG_CACHE_HOME" (sandbox ++ "/.cache")
                 (env_set "HOME" sandbox e));
     shell := false;
     detached := true |}.

(** The state of the executor once spawn and setTimeout have been called,
    lines 41-68, for a [hardSeconds] on which [hardSeconds * 1000] does not
    throw. *)
Definition spawned (args : list value) (e : list (string * string))
  (sandbox : string) (hardSeconds : value) : agent_state :=
  {| out := ""; err := ""; timer_armed := true; settled := None;
     calls := [Spawn CURSOR_BIN args (spawn_opts e sandbox);
               SetTimeout (times_1000 hardSeconds)] |}.

(** runAgent, lines 30-81, awaited.  The effects of all callbacks are entered
    in the trace before the caller goes on; the caller's own effects come
    after the settlement in any case.  This is runAgent for an identifier and
    a deadline whose implicit conversions do not throw; where one throws
    ([conversion_throws]) the function itself stops there, at line 36 before
    any call or at line 68 after the spawn. *)
Definition runAgent (w : world) (args : list value) (e : list (string * string))
  (correlationId hardSeconds : value) : M run_result :=
  let sandbox := sandbox_of correlationId in
  emit (Mkdir sandbox true) ;;
  match mkdir_error w with
  | Some x => throw x
  | None =>
      let s := event_loop w hardSeconds
                 (spawned args e sandbox hardSeconds) (proc_events w) in
      emit_all (calls s) ;;
      match settled s with
      | Some (Resolved r) => ret r
      | Some (Rejected x) => throw x
      | None => lift Pending
      end
  end.

Section Platform.

(** Library functions of the Node.js platform the handler calls. *)

(** [JSON.parse(Buffer.from(b64, "base64").toString())]; [None] when
    JSON.parse throws its SyntaxError. *)
Variable parse_base64_json : string -> option value.

(** [JSON.stringify], applied to the message and to object literals only. *)
Variable JSON_stringify : value -> string.

(** [crypto.randomUUID()]: the string its n-th call returns. *)
Variable randomUUID : nat -> string.

(** decode, lines 24-28. *)
Definition decode (event : PubSubEvent) : outcome value :=
  let b64 :=
    match data event with
    | None => None
    | Some d => match message d with
                | None => None
                | Some m => payload m
                end
    end in
  match b64 with
  | None => Threw (Error "Malformed Pub/Sub message: missing data field")
  | Some b =>
      if b =? ""
      then Threw (Error "Malformed Pub/Sub message: missing data field")
      else match parse_base64_json b with
           | Some v => Done v
           | None => Threw SyntaxError
           end
  end.

Definition fetch (w : world) (url : value) (req : request) : M unit :=
  emit (Fetch url req) ;;
  match fetch_result w url req with
  | Response _ => ret tt
  | NetworkError x => throw x
  end.

(** The URL of line 85, for [printable] repo and pr. *)
Definition github_url (repo pr : value) : string :=
  "https://api.github.com/repos/" ++ ToString repo ++ "/issues/"
    ++ ToString pr ++ "/comments".

(** postGitHub, lines 83-96, for a targets object whose repo, pr and token
    are [printable]. *)
Definition postGitHub (w : world) (targets : value) (body : string) : M unit :=
  repo <- lift (get targets "repo") ;;
  pr <- lift (get targets "pr") ;;
  token <- lift (get targets "token") ;;
  fetch w (VStr (github_url repo pr))
    {| req_method := "POST";
       req_headers := [("Authorization", "Bearer " ++ ToString token);
                       ("Accept", "application/vnd.github+json");
                       ("Content-Type", "application/json")];
       req_body := JSON_stringify (VObj [("body", VStr body)]) |}.

(** [msg.correlation_id || crypto.randomUUID()], line 103. *)
Definition correlationId_of (msg : value) : M value :=
  given <- lift (get msg "correlation_id") ;;
  if truthy given then ret given
  else fun st =>
         (Done (VStr (randomUUID (uuid_calls st))),
          {| trace := trace st; uuid_calls := S (uuid_calls st) |}).

(** [msg.timeouts?.hard_seconds ?? 900], line 104. *)
Definition hardSeconds_of (msg : value) : outcome value :=
  match get msg "timeouts" with
  | Done t => Done (coalesce (opt_prop t "hard_seconds") (VNum 900))
  | Threw x => Threw x
  | Pending => Pending
  end.

(** [msg.agent?.name ?? "default"], line 108. *)
Definition agent_name_of (msg : value) : outcome value :=
  match get msg "agent" with
  | Done a => Done (coalesce (opt_prop a "name") (VStr "default"))
  | Threw x => Threw x
  | Pending => Pending
  end.

(** [msg.reply?.type] *)
Definition reply_type (msg : value) : outcome value :=
  match get msg "reply" with
  | Done r => Done (opt_prop r "type")
  | Threw x => Threw x
  | Pending => Pending
  end.

(** [msg.reply?.type?.startsWith("github.")], as the condition of an if.
    Only a string has a startsWith method. *)
Definition is_github (msg : value) : outcome bool :=
  match reply_type msg with
  | Done t =>
      if nullish t then Done false
      else match t with
           | VStr s => Done (startsWith s "github.")
           | _ =>
               Threw (TypeError
                        "msg.reply?.type?.startsWith is not a function")
           end
  | Threw x => Threw x
  | Pending => Pending
  end.

(** [msg.reply?.type === "slack.message"] *)
Definition is_slack (msg : value) : outcome bool :=
  match reply_type msg with
  | Done (VStr s) => Done (s =? "slack.message")
  | Done _ => Done false
  | Threw x => Threw x
  | Pending => Pending
  end.

(** [msg.reply.targets] *)
Definition reply_targets (msg : value) : outcome value :=
  match get msg "reply" with
  | Done r => get r "targets"
  | Threw x => Threw x
  | Pending => Pending
  end.

(** Lines 122-131: the sinks. *)
Definition dispatch (w : world) (msg : value) (out : string) : M unit :=
  g <- lift (is_github msg) ;;
  (if g : bool
   then targets <- lift (reply_targets msg) ;; postGitHub w targets out
   else ret tt) ;;
  s <- lift (is_slack msg) ;;
  if s : bool
  then
    targets <- lift (reply_targets msg) ;;
    url <- lift (get targets "response_url") ;;
    fetch w url
      {| req_method := "POST";
         req_headers := [("Content-Type", "application/json")];
         req_body := JSON_stringify (VObj [("text", VStr (slice out 0 39000))]) |}
  else ret tt.

(** [process.env.CURSOR_API_KEY] and the test [!key], lines 100-101. *)
Definition api_key (w : world) : outcome string :=
  match env_get "CURSOR_API_KEY" (process_env w) with
  | None => Threw (Error "missing CURSOR_API_KEY")
  | Some k => if k =? "" then Threw (Error "missing CURSOR_API_KEY") else Done k
  end.

Definition agent_args (msg name : value) : list value :=
  [VStr "--name"; name; VStr "--input"; VStr (JSON_stringify msg)].

(** The handler registered with cloudEvent, lines 98-132. *)
Definition worker (w : world) (event : PubSubEvent) : M unit :=
  msg <- lift (decode event) ;;
  key <- lift (api_key w) ;;
  correlationId <- correlationId_of msg ;;
  hardSeconds <- lift (hardSeconds_of msg) ;;
  name <- lift (agent_name_of msg) ;;
  r <- runAgent w (agent_args msg name)
         (env_set "CURSOR_API_KEY" key (process_env w))
         correlationId hardSeconds ;;
  if negb (code r =? 0)%Z
  then throw (Error ("cursor failed: " ++ slice (stderr r) 0 4000))
  else dispatch w msg (stdout r).

End Platform.


(** ** Observations on runs *)

Definition is_output (e : proc_event) : bool :=
  match e with
  | StdoutData _ | StderrData _ => true
  | _ => false
  end.

(** What the data callbacks have appended to [out] and to [err]. *)
Fixpoint stdout_of (events : list proc_event) : string :=
  match events with
  | [] => ""
  | StdoutData d :: rest => d ++ stdout_of rest
  | _ :: rest => stdout_of rest
  end.

Fixpoint stderr_of (events : list proc_event) : string :=
  match events with
  | [] => ""
  | StderrData d :: rest => d ++ stderr_of rest
  | _ :: rest => stderr_of rest
  end.

Definition is_fetch (e : effect) : bool :=
  match e with
  | Fetch _ _ => true
  | _ => false
  end.

Definition is_clear (e : effect) : bool :=
  match e with
  | ClearTimeout => true
  | _ => false
  end.

(** What awaiting the promise of runAgent gives, once the callbacks have
    run. *)
Definition verdict (s : agent_state) : outcome run_result :=
  match settled s with
  | Some (Resolved r) => Done r
  | Some (Rejected x) => Threw x
  | None => Pending
  end.

Definition fetches (tr : list effect) : list effect := filter is_fetch tr.

(** The value line 103 computes when [n] UUIDs were drawn before. *)
Definition correlationId_at (randomUUID : nat -> string) (msg : value)
  (n : nat) : value :=
  if truthy (prop msg "correlation_id")
  then prop msg "correlation_id"
  else VStr (randomUUID n).

(** The state an invocation starts in: nothing done yet, [n] UUIDs drawn by
    earlier invocations of the same instance. *)
Definition start (n : nat) : wstate := {| trace := []; uuid_calls := n |}.

(** The invocation gets as far as spawning the agent: the envelope decodes to
    [msg], which is not null, the API key [key] is set and the sandbox
    directory can be created. *)
Definition accepted (parse : string -> option value) (w : world)
  (event : PubSubEvent) (msg : value) (key : string) : Prop :=
  decode parse event = Done msg /\
  nullish msg = false /\
  api_key w = Done key /\
  mkdir_error w = None.

(** The process closes with [c] after only output callbacks: before the
    deadline and without an error event. *)
Definition exits (w : world) (pre : list proc_event) (c : option Z)
  (post : list proc_event) : Prop :=
  proc_events w = (pre ++ Close c :: post)%list /\ forallb is_output pre = true.

(** The deadline expires while the process has neither closed nor failed. *)
Definition expires (w : world) (pre post : list proc_event) : Prop :=
  proc_events w = (pre ++ TimerFired :: post)%list /\ forallb is_output pre = true.

Definition contains (needle s : string) : bool :=
  match String.index 0 needle s with
  | Some _ => true
  | None => false
  end.

(** The identifier holds a path separator or a parent-directory sequence. *)
Definition unsafe_segment (s : string) : bool :=
  contains "/" s || contains ".." s.

(** [msg.timeouts?.hard_seconds] and [msg.agent?.name], for a [msg] that is
    not null. *)
Definition hard_seconds_field (msg : value) : value :=
  opt_prop (prop msg "timeouts") "hard_seconds".

Definition agent_name_field (msg : value) : value :=
  opt_prop (prop msg "agent") "name".

(** The deadline and the agent name the handler works with, lines 104 and
    108, for a [msg] that is not null. *)
Definition effective_deadline (msg : value) : value :=
  coalesce (hard_seconds_field msg) (VNum 900).

Definition effective_name (msg : value) : value :=
  coalesce (agent_name_field msg) (VStr "default").

(** The state after line 103. *)
Definition after_correlationId (msg : value) (st : wstate) : wstate :=
  {| trace := trace st;
     uuid_calls := if truthy (prop msg "correlation_id")
                   then uuid_calls st else S (uuid_calls st) |}.

Definition answer (w : world) (url : value) (req : request) : outcome unit :=
  match fetch_result w url req with
  | Response _ => Done tt
  | NetworkError x => Threw x
  end.

Definition github_request (stringify : value -> string) (targets : value)
  (body : string) : request :=
  {| req_method := "POST";
     req_headers := [("Authorization", "Bearer " ++ ToString (prop targets "token"));
                     ("Accept", "application/vnd.github+json");
                     ("Content-Type", "application/json")];
     req_body := stringify (VObj [("body", VStr body)]) |}.

Definition slack_request (stringify : value -> string) (text : string)
  : request :=
  {| req_method := "POST";
     req_headers := [("Content-Type", "application/json")];
     req_body := stringify (VObj [("text", VStr text)]) |}.

(** ** A sample platform and sample worlds *)

Module Sample.

Definition dquote : string := String "034"%char "".

Definition quoted (s : string) : string := dquote ++ s ++ dquote.

(** JSON.stringify for values whose strings need no escape. *)
Fixpoint stringify (v : value) : string :=
  match v with
  | VUndefined | VNull => "null"
  | VBool true => "true"
  | VBool false => "false"
  | VNum n => string_of_Z n
  | VStr s => quoted s
  | VArr items =>
      "[" ++
      (fix join (l : list value) : string :=
         match l with
         | [] => ""
         | x :: rest =>
             stringify x ++
             match rest with
             | [] => ""
             | _ :: _ => "," ++ join rest
             end
         end) items
      ++ "]"
  | VObj fields =>
      "{" ++
      (fix members (l : list (string * value)) : string :=
         match l with
         | [] => ""
         | (k, x) :: rest =>
             quoted k ++ ":" ++ stringify x ++
             match rest with
             | [] => ""
             | _ :: _ => "," ++ members rest
             end
         end) fields
      ++ "}"
  end.

Definition github_targets : value :=
  VObj [("repo", VStr "acme/app"); ("pr", VNum 7); ("token", VStr "t0k")].

Definition msg_empty : value := VObj [].

Definition msg_traversal : value :=
  VObj [("correlation_id", VStr "../../etc")].

Definition msg_zero_deadline : value :=
  VObj [("timeouts", VObj [("hard_seconds", VNum 0)])].

Definition msg_github : value :=
  VObj [("agent", VObj [("name", VStr "reviewer")]);
        ("reply", VObj [("type", VStr "github.pr_review");
                        ("targets", github_targets)])].

Definition msg_github_issue : value :=
  VObj [("agent", VObj [("name", VStr "reviewer")]);
        ("reply", VObj [("type", VStr "github.issue");
                        ("targets", github_targets)])].

Definition msg_slack : value :=
  VObj [("agent", VObj [("name", VStr "helper")]);
        ("reply", VObj [("type", VStr "slack.message");
                        ("targets",
                         VObj [("response_url",
                                VStr "https://hooks.slack.example/r/1")])])].

Definition msg_plain : value :=
  VObj [("agent", VObj [("name", VStr "x")])].

(** The payloads: base64 of the JSON text of the messages above. *)
Definition b64_empty : string := "e30=".

Definition b64_traversal : string :=
  "eyJjb3JyZWxhdGlvbl9pZCI6Ii4uLy4uL2V0YyJ9".

Definition b64_zero_deadline : string :=
  "eyJ0aW1lb3V0cyI6eyJoYXJkX3NlY29uZHMiOjB9fQ==".

Definition b64_github : string :=
  "eyJhZ2VudCI6eyJuYW1lIjoicmV2aWV3ZXIifSwicmVwbHkiOnsidHlwZSI6ImdpdGh1Yi5wcl9yZXZpZXciLCJ0YXJnZXRzIjp7InJlcG8iOiJhY21lL2FwcCIsInByIjo3LCJ0b2tlbiI6InQwayJ9fX0=".

Definition b64_github_issue : string :=
  "eyJhZ2VudCI6eyJuYW1lIjoicmV2aWV3ZXIifSwicmVwbHkiOnsidHlwZSI6ImdpdGh1Yi5pc3N1ZSIsInRhcmdldHMiOnsicmVwbyI6ImFjbWUvYXBwIiwicHIiOjcsInRva2VuIjoidDBrIn19fQ==".

Definition b64_slack : string :=
  "eyJhZ2VudCI6eyJuYW1lIjoiaGVscGVyIn0sInJlcGx5Ijp7InR5cGUiOiJzbGFjay5tZXNzYWdlIiwidGFyZ2V0cyI6eyJyZXNwb25zZV91cmwiOiJodHRwczovL2hvb2tzLnNsYWNrLmV4YW1wbGUvci8xIn19fQ==".

Definition b64_plain : string := "eyJhZ2VudCI6eyJuYW1lIjoieCJ9fQ==".

(** What JSON.parse makes of the decoded payloads; every other payload is
    taken as bad JSON. *)
Definition payloads : list (string * value) :=
  [(b64_empty, msg_empty);
   (b64_traversal, msg_traversal);
   (b64_zero_deadline, msg_zero_deadline);
   (b64_github, msg_github);
   (b64_github_issue, msg_github_issue);
   (b64_slack, msg_slack);
   (b64_plain, msg_plain)].

Definition parse (b64 : string) : option value := lookup b64 payloads.

(** An identifier per call, all different. *)
Definition uuid (n : nat) : string := "uuid-" ++ string_of_Z (Z.of_nat n).

Definition event_of (b64 : string) : PubSubEvent :=
  {| data := Some {| message := Some {| payload := Some b64 |} |} |}.

Definition sink_accepts : value -> request -> fetch_outcome :=
  fun _ _ => Response 201.

Definition sink_refuses : value -> request -> fetch_outcome :=
  fun _ _ => Response 500.

Definition sink_unreachable : value -> request -> fetch_outcome :=
  fun _ _ => NetworkError (FetchError "ECONNRESET").

Definition world_of (events : list proc_event)
  (sink : value -> request -> fetch_outcome) : world :=
  {| process_env := [("PATH", "/usr/bin"); ("CURSOR_API_KEY", "key-1")];
     mkdir_error := None;
     proc_pid := Some 4242%Z;
     proc_events := events;
     group_kill_error := false;
     fetch_result := sink |}.

(** A string of [n] code units. *)
Definition filler (n : N) : string := N.iter n (String "x"%char) "".

(** The process prints ok and exits 0. *)
Definition world_ok : world :=
  world_of [StdoutData "ok"; Close (Some 0%Z)] sink_accepts.

(** The process prints to stderr and exits 2. *)
Definition world_failed : world :=
  world_of [StderrData "boom"; Close (Some 2%Z)] sink_accepts.

(** A signal from outside ends the process: the exit code is null. *)
Definition world_killed : world :=
  world_of [StderrData "oom"; Close None] sink_accepts.

(** The process is still running when the watchdog fires. *)
Definition world_timeout : world :=
  world_of [StdoutData "partial"; TimerFired; Close None] sink_accepts.

(** The process succeeds and the sink cannot be reached. *)
Definition world_unreachable : world :=
  world_of [StdoutData "LGTM"; Close (Some 0%Z)] sink_unreachable.

(** The process succeeds and the sink answers 500. *)
Definition world_refused : world :=
  world_of [StdoutData "LGTM"; Close (Some 0%Z)] sink_refuses.

(** The process prints 50000 characters and exits 0. *)
Definition world_long : world :=
  world_of [StdoutData (filler 50000); Close (Some 0%Z)] sink_accepts.

Definition review_url : value :=
  VStr "https://api.github.com/repos/acme/app/issues/7/comments".

End Sample.

(** ** Further observations *)

Definition is_kill (e : effect) : bool :=
  match e with
  | ProcessKill _ _ | ChildKill _ => true
  | _ => false
  end.

Definition kills (tr : list effect) : list effect := filter is_kill tr.

(** The calls a callback of runAgent can make. *)
Definition is_callback_call (e : effect) : bool :=
  match e with
  | ProcessKill _ _ | ChildKill _ | ClearTimeout => true
  | _ => false
  end.

(** The signals of one run of the timer callback, lines 60-64. *)
Definition kill_sequence (w : world) : list effect :=
  ProcessKill (option_map Z.opp (proc_pid w)) SIGKILL ::
  (if group_kill_throws w then [ChildKill SIGKILL] else []).

(** The error event comes after only output callbacks: before the deadline
    and before any close. *)
Definition fails (w : world) (pre : list proc_event) (e : exn)
  (post : list proc_event) : Prop :=
  proc_events w = (pre ++ ProcError e :: post)%list /\
  forallb is_output pre = true.

(** [event?.data?.message?.data] *)
Definition payload_of (event : PubSubEvent) : option string :=
  match data event with
  | None => None
  | Some d => match message d with
              | None => None
              | Some m => payload m
              end
  end.

(** The envelope decodes to a message that is not null and the API key is
    set: the handler gets as far as runAgent. *)
Definition ready (parse : string -> option value) (w : world)
  (event : PubSubEvent) (msg : value) (key : string) : Prop :=
  decode parse event = Done msg /\
  nullish msg = false /\
  api_key w = Done key.

(** The names the handler sets in the environment of the agent. *)
Definition overlay_names : list string :=
  ["CURSOR_API_KEY"; "HOME"; "XDG_CACHE_HOME"; "XDG_CONFIG_HOME"].

(** Where the watchdog stands: armed with the promise pending and no signal
    sent; cleared with no signal sent; or fired, with the promise rejected by
    the timeout error and the signals of one run of the callback sent. *)
Inductive timer_phase (w : world) (hardSeconds : value) (s : agent_state)
  : Prop :=
| Armed :
    timer_armed s = true -> settled s = None -> kills (calls s) = [] ->
    timer_phase w hardSeconds s
| Cleared :
    timer_armed s = false -> kills (calls s) = [] ->
    timer_phase w hardSeconds s
| Fired :
    timer_armed s = false ->
    settled s = Some (Rejected (Error (timeout_message hardSeconds))) ->
    kills (calls s) = kill_sequence w ->
    timer_phase w hardSeconds s.

(** ** More sample messages and worlds *)

Module More.

Definition msg_with_id : value :=
  VObj [("correlation_id", VStr "task-42");
        ("agent", VObj [("name", VStr "x")])].

Definition msg_blank_id : value :=
  VObj [("correlation_id", VStr ""); ("agent", VObj [("name", VStr "x")])].

Definition msg_numeric_type : value :=
  VObj [("reply", VObj [("type", VNum 7)])].

Definition msg_github_no_targets : value :=
  VObj [("reply", VObj [("type", VStr "github.pr_review")])].

Definition msg_slack_no_targets : value :=
  VObj [("reply", VObj [("type", VStr "slack.message")])].

Definition msg_email : value :=
  VObj [("reply", VObj [("type", VStr "email");
                        ("targets", VObj [("to", VStr "a@b.c")])])].

Definition msg_negative_deadline : value :=
  VObj [("timeouts", VObj [("hard_seconds", VNum (-5))])].

Definition b64_negative_deadline : string :=
  "eyJ0aW1lb3V0cyI6eyJoYXJkX3NlY29uZHMiOi01fX0=".

Definition b64_null : string := "bnVsbA==".

Definition b64_with_id : string :=
  "eyJjb3JyZWxhdGlvbl9pZCI6InRhc2stNDIiLCJhZ2VudCI6eyJuYW1lIjoieCJ9fQ==".

Definition b64_blank_id : string :=
  "eyJjb3JyZWxhdGlvbl9pZCI6IiIsImFnZW50Ijp7Im5hbWUiOiJ4In19".

Definition b64_numeric_type : string := "eyJyZXBseSI6eyJ0eXBlIjo3fX0=".

Definition b64_github_no_targets : string :=
  "eyJyZXBseSI6eyJ0eXBlIjoiZ2l0aHViLnByX3JldmlldyJ9fQ==".

Definition b64_slack_no_targets : string :=
  "eyJyZXBseSI6eyJ0eXBlIjoic2xhY2subWVzc2FnZSJ9fQ==".

Definition b64_email : string :=
  "eyJyZXBseSI6eyJ0eXBlIjoiZW1haWwiLCJ0YXJnZXRzIjp7InRvIjoiYUBiLmMifX19".

(** What JSON.parse makes of these payloads and of those of [Sample]. *)
Definition payloads : list (string * value) :=
  [(b64_null, VNull);
   (b64_negative_deadline, msg_negative_deadline);
   (b64_with_id, msg_with_id);
   (b64_blank_id, msg_blank_id);
   (b64_numeric_type, msg_numeric_type);
   (b64_github_no_targets, msg_github_no_targets);
   (b64_slack_no_targets, msg_slack_no_targets);
   (b64_email, msg_email)].

Definition parse (b64 : string) : option value :=
  match lookup b64 payloads with
  | Some v => Some v
  | None => Sample.parse b64
  end.

(** The binary cannot be started: the error event is all that comes. *)
Definition world_spawn_error : world :=
  Sample.world_of [ProcError (SystemError "ENOENT"); TimerFired]
    Sample.sink_accepts.

(** The sandbox directory cannot be created. *)
Definition world_mkdir_denied : world :=
  {| process_env := [("CURSOR_API_KEY", "key-1")];
     mkdir_error := Some (SystemError "EACCES");
     proc_pid := Some 4242%Z;
     proc_events := [Close (Some 0%Z)];
     group_kill_error := false;
     fetch_result := Sample.sink_accepts |}.

(** CURSOR_API_KEY is not set. *)
Definition world_no_key : world :=
  {| process_env := [("PATH", "/usr/bin")];
     mkdir_error := None;
     proc_pid := Some 4242%Z;
     proc_events := [StdoutData "ok"; Close (Some 0%Z)];
     group_kill_error := false;
     fetch_result := Sample.sink_accepts |}.

(** The process inherits a HOME of its own. *)
Definition world_with_home : world :=
  {| process_env := [("HOME", "/root"); ("CURSOR_API_KEY", "key-1");
                     ("LANG", "C")];
     mkdir_error := None;
     proc_pid := Some 4242%Z;
     proc_events := [StdoutData "ok"; Close (Some 0%Z)];
     group_kill_error := false;
     fetch_result := Sample.sink_accepts |}.

(** The group cannot be signalled when the watchdog fires. *)
Definition world_group_kill_fails : world :=
  {| process_env := [("CURSOR_API_KEY", "key-1")];
     mkdir_error := None;
     proc_pid := Some 4242%Z;
     proc_events := [StdoutData "partial"; TimerFired; Close None];
     group_kill_error := true;
     fetch_result := Sample.sink_accepts |}.

(** The process exits 3; data and the timer event still come after the
    close. *)
Definition world_late_events : world :=
  {| process_env := [("CURSOR_API_KEY", "key-1")];
     mkdir_error := None;
     proc_pid := Some 4242%Z;
     proc_events := [StdoutData "a"; StderrData "warn"; StdoutData "b";
                     Close (Some 3%Z); TimerFired; StdoutData "late"];
     group_kill_error := false;
     fetch_result := Sample.sink_accepts |}.

End More.

(** ** The router (functions/router.ts): HTTP in, Pub/Sub out

    The handler that builds the messages the worker consumes.  It answers an
    HTTP request either with 401, or by publishing a message and answering
    202.  The clock, the environment and the outcome of the publish call are
    read from a [setting] of its own; the trace lists the messages published and
    the responses sent. *)

Module Router.

Record http_request : Type := {
  headers : list (string * string);   (* names in lower case, as Node has them *)
  body : value                        (* req.body: a string, or the parsed body *)
}.

(** [req.headers[name]] *)
Definition header (name : string) (req : http_request) : option string :=
  env_get name (headers req).

Inductive failure : Type :=
| TypeErr (what : string)
| SyntaxErr                       (* JSON.parse *)
| RangeErr                        (* crypto.timingSafeEqual: lengths differ *)
| PublishErr (reason : string).   (* publishMessage rejects *)

Inductive result (A : Type) : Type :=
| Ok (a : A)
| Fails (f : failure).

Arguments Ok {A} a.
Arguments Fails {A} f.

Inductive sent : Type :=
| Publish (topic : string) (msg : value)    (* publishMessage({ json: msg }) *)
| Respond (status : Z) (content : value).  (* res.status(..).send(..) *)

Record setting : Type := {
  signing_secret : option string;   (* process.env.SLACK_SIGNING_SECRET *)
  pubsub_topic : string;            (* process.env.PUBSUB_TOPIC, which the
                                       module takes as set *)
  now_ms : Z;                       (* Date.now() *)
  publish_error : option failure    (* Some f: publishMessage rejects with f *)
}.

Record state : Type := {
  log : list sent;       (* oldest first *)
  uuids_drawn : nat      (* how often crypto.randomUUID() was called *)
}.

Definition fresh (n : nat) : state := {| log := []; uuids_drawn := n |}.

Definition record (x : sent) (st : state) : state :=
  {| log := log st ++ [x]; uuids_drawn := uuids_drawn st |}.

(** [Math.abs(Date.now() / 1000 - t) > 60 * 5] for a [t] of whole seconds,
    both sides taken times 1000; [None] is NaN, for which the comparison is
    false. *)
Definition stale (now : Z) (t : option Z) : bool :=
  match t with
  | None => false
  | Some s => (60 * 5 * 1000 <? Z.abs (now - 1000 * s))%Z
  end.

(** [a || b] *)
Definition or_else (a b : value) : value := if truthy a then a else b.

(** The object literal of lines 570-577, given the correlation identifier. *)
Definition build_message (payload correlationId : value) : value :=
  VObj [("version", VStr "1.0");
        ("correlation_id", correlationId);
        ("agent", prop payload "agent");
        ("context", or_else (prop payload "context") (VObj []));
        ("reply", or_else (prop payload "reply") (VObj []));
        ("timeouts",
         or_else (prop payload "timeouts") (VObj [("hard_seconds", VNum 900)]))].

Section Platform.

(** [JSON.parse]; [None] when it throws. *)
Variable JSON_parse : string -> option value.

Variable JSON_stringify : value -> string.

Variable randomUUID : nat -> string.

(** [Number(s)] for a header value, in whole seconds; [None] is NaN.  A
    header carrying a fraction is outside this model. *)
Variable Number_of : string -> option Z.

(** [crypto.createHmac("sha256", key).update(text).digest("hex")] *)
Variable hmac_sha256_hex : string -> string -> string.

(** The length of [Buffer.from(s, "utf8")]. *)
Variable utf8_length : string -> N.

(** [typeof req.body === "string" ? req.body : JSON.stringify(req.body)],
    as the template literal of line 551 renders it. *)
Definition body_text (req : http_request) : string :=
  match body req with
  | VStr s => s
  | VUndefined => "undefined"
  | v => JSON_stringify v
  end.

(** [`v0:${timestamp}:${body}`] *)
Definition base_string (req : http_request) : string :=
  "v0:" ++
  match header "x-slack-request-timestamp" req with
  | Some t => t
  | None => "undefined"
  end ++ ":" ++ body_text req.

(** verifySlack, lines 542-559. *)
Definition verifySlack (w : setting) (req : http_request) : result bool :=
  let timestamp := header "x-slack-request-timestamp" req in
  let signature := header "x-slack-signature" req in
  if stale (now_ms w)
       (match timestamp with Some t => Number_of t | None => None end)
  then Ok false
  else
    match signing_secret w with
    | None => Fails (TypeErr "The key argument must be of type string")
    | Some secret =>
        let computedSig := "v0=" ++ hmac_sha256_hex secret (base_string req) in
        match signature with
        | None => Fails (TypeErr "The first argument must be of type string")
        | Some s =>
            if (utf8_length computedSig =? utf8_length s)%N
            then Ok (computedSig =? s)
            else Fails RangeErr
        end
    end.

(** [req.headers["user-agent"]?.includes("Slackbot")] *)
Definition from_slack (req : http_request) : bool :=
  match header "user-agent" req with
  | Some agent => contains "Slackbot" agent
  | None => false
  end.

(** [typeof req.body === "string" ? JSON.parse(req.body) : req.body] *)
Definition payload_of_body (req : http_request) : result value :=
  match body req with
  | VStr s =>
      match JSON_parse s with
      | Some v => Ok v
      | None => Fails SyntaxErr
      end
  | v => Ok v
  end.

(** The handler registered with http, lines 561-582. *)
Definition router (w : setting) (req : http_request) (st : state)
  : result unit * state :=
  match (if from_slack req then verifySlack w req else Ok true) with
  | Fails f => (Fails f, st)
  | Ok false => (Ok tt, record (Respond 401 (VStr "bad sig")) st)
  | Ok true =>
      match payload_of_body req with
      | Fails f => (Fails f, st)
      | Ok payload =>
          if nullish payload
          then (Fails (TypeErr "Cannot read properties of the payload"), st)
          else
            let given := prop payload "correlation_id" in
            let correlationId :=
              if truthy given then given
              else VStr (randomUUID (uuids_drawn st)) in
            let st1 :=
              {| log := log st;
                 uuids_drawn := if truthy given then uuids_drawn st
                                else S (uuids_drawn st) |} in
            let msg := build_message payload correlationId in
            let st2 := record (Publish (pubsub_topic w) msg) st1 in
            match publish_error w with
            | Some f => (Fails f, st2)
            | None =>
                (Ok tt,
                 record (Respond 202
                           (VObj [("ok", VBool true); ("id", correlationId)]))
                   st2)
            end
      end
  end.

End Platform.

End Router.

(** ** Sample requests for the router *)

Module RouterSample.

Import Router.

(** A stand-in for the MAC, different for different keys and texts. *)
Definition mac (key text : string) : string := key ++ "/" ++ text.

(** Decimal digits to a number; anything else is NaN. *)
Definition number (s : string) : option Z :=
  option_map Z.of_int (NilEmpty.int_of_string s).

Definition payload_text : string := "{}".

Definition parse (s : string) : option value :=
  if s =? payload_text then Some (VObj []) else None.

Definition clock : Z := 1700000000000.

Definition setting_ok : setting :=
  {| signing_secret := Some "s3cret";
     pubsub_topic := "agents-main";
     now_ms := clock;
     publish_error := None |}.

Definition setting_publish_fails : setting :=
  {| signing_secret := Some "s3cret";
     pubsub_topic := "agents-main";
     now_ms := clock;
     publish_error := Some (PublishErr "UNAVAILABLE") |}.

Definition review_payload : value :=
  VObj [("agent", VObj [("name", VStr "reviewer")]);
        ("reply", VObj [("type", VStr "github.pr_review");
                        ("targets", Sample.github_targets)]);
        ("timeouts", VObj [("hard_seconds", VNum 60)])].

(** A request of some other client: no signature at all. *)
Definition plain_request : http_request :=
  {| headers := [("user-agent", "curl/8.5.0")];
     body := review_payload |}.

Definition slack_headers (timestamp signature : string)
  : list (string * string) :=
  [("user-agent", "Slackbot 1.0 (+https://api.slack.com/robots)");
   ("x-slack-request-timestamp", timestamp);
   ("x-slack-signature", signature)].

(** A Slack request signed with the secret, ten seconds old. *)
Definition signed_request : http_request :=
  {| headers := slack_headers "1699999990"
                  ("v0=" ++ mac "s3cret" ("v0:1699999990:" ++ payload_text));
     body := VStr payload_text |}.

(** The same request, replayed an hour later. *)
Definition replayed_request : http_request :=
  {| headers := slack_headers "1699996400"
                  ("v0=" ++ mac "s3cret" ("v0:1699996400:" ++ payload_text));
     body := VStr payload_text |}.

(** A Slack request with a signature of another length. *)
Definition short_signature_request : http_request :=
  {| headers := slack_headers "1699999990" "v0=00";
     body := VStr payload_text |}.

End RouterSample.
(** ** Facts about strings and slices *)

Module StringFacts.

Lemma append_nil_r (s : string) : s ++ "" = s.
Proof. induction s as [|c s IH]; simpl; [reflexivity | now rewrite IH]. Qed.

Lemma append_assoc (a b c : string) : (a ++ b) ++ c = a ++ (b ++ c).
Proof. induction a as [|x a IH]; simpl; [reflexivity | now rewrite IH]. Qed.

Lemma strlen_append (a b : string) :
  strlen (a ++ b) = (strlen a + strlen b)%N.
Proof.
  induction a as [|c a IH]; simpl.
  - reflexivity.
  - rewrite IH. lia.
Qed.

Lemma strlen_take (s : string) :
  forall n : N, strlen (take n s) = N.min n (strlen s).
Proof.
  induction s as [|c s IH]; intros n; simpl.
  - lia.
  - destruct (N.eqb_spec n 0) as [->|Hn]; simpl.
    + lia.
    + rewrite IH. lia.
Qed.

Lemma take_drop (s : string) :
  forall n : N, take n s ++ drop n s = s.
Proof.
  induction s as [|c s IH]; intros n; simpl.
  - reflexivity.
  - destruct (N.eqb_spec n 0) as [->|Hn]; simpl.
    + reflexivity.
    + now rewrite IH.
Qed.

Lemma take_min (s : string) :
  forall n : N, take (N.min n (strlen s)) s = take n s.
Proof.
  induction s as [|c s IH]; intros n; simpl.
  - reflexivity.
  - destruct (N.eqb_spec n 0) as [->|Hn].
    + now rewrite N.min_0_l.
    + destruct (N.eqb_spec (N.min n (N.succ (strlen s))) 0) as [H0|_]; [lia|].
      f_equal.
      replace (N.pred (N.min n (N.succ (strlen s))))
        with (N.min (N.pred n) (strlen s)) by lia.
      apply IH.
Qed.

Lemma take_all (s : string) (n : N) :
  (strlen s <= n)%N -> take n s = s.
Proof.
  revert n; induction s as [|c s IH]; intros n Hn; simpl in *.
  - reflexivity.
  - destruct (N.eqb_spec n 0) as [->|H0]; [lia|].
    f_equal. apply IH. lia.
Qed.

Lemma drop_0 (s : string) : drop 0 s = s.
Proof. destruct s; reflexivity. Qed.

(** [s.slice(0, k)] with a constant k >= 0 keeps the first k code units. *)
Lemma slice_0 (s : string) (k : Z) :
  (0 <= k)%Z -> slice s 0 k = take (Z.to_N k) s.
Proof.
  intros Hk. unfold slice, clamp_index.
  destruct (Z.ltb_spec k 0) as [Hneg|_]; [lia|].
  simpl (0 <? 0)%Z. cbv iota.
  replace (N.min (Z.to_N 0) (strlen s)) with 0%N by lia.
  rewrite drop_0, N.sub_0_r.
  apply take_min.
Qed.

Lemma strlen_slice_0 (s : string) (k : Z) :
  (0 <= k)%Z -> strlen (slice s 0 k) = N.min (Z.to_N k) (strlen s).
Proof.
  intros Hk. rewrite slice_0 by assumption. apply strlen_take.
Qed.

Lemma slice_0_prefix (s : string) (k : Z) :
  (0 <= k)%Z -> exists rest, s = slice s 0 k ++ rest.
Proof.
  intros Hk. exists (drop (Z.to_N k) s).
  rewrite slice_0 by assumption. symmetry. apply take_drop.
Qed.

Lemma string_of_Z_inj (a b : Z) : string_of_Z a = string_of_Z b -> a = b.
Proof.
  unfold string_of_Z. intros H.
  apply (f_equal NilEmpty.int_of_string) in H.
  rewrite !NilEmpty.isi in H.
  injection H as H.
  apply (f_equal Z.of_int) in H.
  now rewrite !DecimalZ.of_to in H.
Qed.

(** A type that starts with "github." is not "slack.message". *)
Lemma github_not_slack (s : string) :
  startsWith s "github." = true -> (s =? "slack.message") = false.
Proof.
  unfold startsWith. intros H.
  destruct (String.eqb_spec s "slack.message") as [->|_].
  - discriminate H.
  - reflexivity.
Qed.

End StringFacts.

(** ** The callbacks of runAgent *)

Module LoopFacts.

Import StringFacts.

Local Open Scope list_scope.

Lemma event_loop_app w hs s (a b : list proc_event) :
  event_loop w hs s (a ++ b) = event_loop w hs (event_loop w hs s a) b.
Proof. unfold event_loop. apply fold_left_app. Qed.

(** Output callbacks only append to [out] and [err]. *)
Lemma event_loop_output w hs (pre : list proc_event) :
  forall s,
    forallb is_output pre = true ->
    event_loop w hs s pre =
      {| out := (out s ++ stdout_of pre)%string;
         err := (err s ++ stderr_of pre)%string;
         timer_armed := timer_armed s;
         settled := settled s;
         calls := calls s |}.
Proof.
  induction pre as [|e pre IH]; intros s Hpre; simpl in *.
  - rewrite !append_nil_r. now destruct s.
  - apply andb_prop in Hpre as [He Hpre].
    destruct e; try discriminate He; simpl;
      (change (fold_left (on_event w hs) pre ?x) with (event_loop w hs x pre));
      rewrite IH by assumption; simpl;
      now rewrite ?append_assoc.
Qed.

(** The first settlement of the promise stays. *)
Lemma settled_sticky w hs (events : list proc_event) :
  forall s r, settled s = Some r -> settled (event_loop w hs s events) = Some r.
Proof.
  induction events as [|e events IH]; intros s r Hs; simpl.
  - assumption.
  - apply IH.
    destruct e; simpl; try assumption.
    + destruct (timer_armed s); [|assumption].
      unfold on_timeout. destruct (group_kill_throws w); simpl; now rewrite Hs.
    + now rewrite Hs.
    + now rewrite Hs.
Qed.

(** Once the timer is cleared or has fired, the callbacks that still run call
    nothing but clearTimeout. *)
Lemma on_event_disarmed w hs s (e : proc_event) :
  timer_armed s = false ->
  timer_armed (on_event w hs s e) = false /\
  exists extra,
    calls (on_event w hs s e) = calls s ++ extra /\
    forallb is_clear extra = true.
Proof.
  intros Hs. destruct e; simpl.
  - split; [assumption|]. exists []. now rewrite app_nil_r.
  - split; [assumption|]. exists []. now rewrite app_nil_r.
  - rewrite Hs. split; [assumption|]. exists []. now rewrite app_nil_r.
  - split; [reflexivity|]. now exists [ClearTimeout].
  - split; [reflexivity|]. now exists [ClearTimeout].
Qed.

Lemma event_loop_disarmed w hs (events : list proc_event) :
  forall s,
    timer_armed s = false ->
    exists extra,
      calls (event_loop w hs s events) = calls s ++ extra /\
      forallb is_clear extra = true.
Proof.
  induction events as [|e events IH]; intros s Hs.
  - exists []. simpl. now rewrite app_nil_r.
  - destruct (on_event_disarmed w hs s e Hs) as (Ht & x & Hx & Hcx).
    destruct (IH _ Ht) as (y & Hy & Hcy).
    exists (x ++ y). split.
    + change (event_loop w hs s (e :: events))
        with (event_loop w hs (on_event w hs s e) events).
      rewrite Hy, Hx. now rewrite app_assoc.
    + rewrite forallb_app. now rewrite Hcx, Hcy.
Qed.

(** Callbacks only add to the calls made so far. *)
Lemma on_event_grows w hs s (e : proc_event) :
  exists extra, calls (on_event w hs s e) = calls s ++ extra.
Proof.
  destruct e; simpl.
  - exists []. now rewrite app_nil_r.
  - exists []. now rewrite app_nil_r.
  - destruct (timer_armed s).
    + unfold on_timeout. destruct (group_kill_throws w); simpl.
      * eexists. rewrite <- app_assoc. reflexivity.
      * eexists. reflexivity.
    + exists []. now rewrite app_nil_r.
  - now exists [ClearTimeout].
  - now exists [ClearTimeout].
Qed.

Lemma event_loop_grows w hs (events : list proc_event) :
  forall s, exists extra, calls (event_loop w hs s events) = calls s ++ extra.
Proof.
  induction events as [|e events IH]; intros s.
  - exists []. simpl. now rewrite app_nil_r.
  - destruct (on_event_grows w hs s e) as (x & Hx).
    destruct (IH (on_event w hs s e)) as (y & Hy).
    exists (x ++ y).
    change (event_loop w hs s (e :: events))
      with (event_loop w hs (on_event w hs s e) events).
    rewrite Hy, Hx. now rewrite app_assoc.
Qed.

(** No callback calls fetch. *)
Lemma on_event_fetches w hs s (e : proc_event) :
  fetches (calls (on_event w hs s e)) = fetches (calls s).
Proof.
  unfold fetches. destruct e; simpl; try reflexivity.
  - destruct (timer_armed s); [|reflexivity].
    unfold on_timeout. destruct (group_kill_throws w); simpl;
      rewrite !filter_app; simpl; now rewrite !app_nil_r.
  - rewrite filter_app. simpl. now rewrite app_nil_r.
  - rewrite filter_app. simpl. now rewrite app_nil_r.
Qed.

Lemma event_loop_fetches w hs (events : list proc_event) :
  forall s, fetches (calls (event_loop w hs s events)) = fetches (calls s).
Proof.
  induction events as [|e events IH]; intros s.
  - reflexivity.
  - change (event_loop w hs s (e :: events))
      with (event_loop w hs (on_event w hs s e) events).
    rewrite IH. apply on_event_fetches.
Qed.

Lemma is_clear_not_fetch (l : list effect) :
  forallb is_clear l = true -> fetches l = [].
Proof.
  unfold fetches. induction l as [|e l IH]; simpl; intros H.
  - reflexivity.
  - apply andb_prop in H as [He Hl]. destruct e; try discriminate He.
    simpl. now apply IH.
Qed.

End LoopFacts.

(** ** runAgent as a whole *)

Module RunFacts.

Import StringFacts LoopFacts.

Local Open Scope list_scope.

Lemma runAgent_unfold w args e cid hs st :
  mkdir_error w = None ->
  runAgent w args e cid hs st =
    (let s := event_loop w hs (spawned args e (sandbox_of cid) hs)
                (proc_events w) in
     (verdict s,
      {| trace := trace st ++ Mkdir (sandbox_of cid) true :: calls s;
         uuid_calls := uuid_calls st |})).
Proof.
  intros Hmk. unfold runAgent, bind, emit, emit_all, verdict.
  rewrite Hmk. cbn zeta. cbn [trace uuid_calls].
  rewrite <- app_assoc. cbn [app].
  destruct (settled _) as [[r|x]|]; reflexivity.
Qed.

Lemma runAgent_mkdir_fails w args e cid hs st x :
  mkdir_error w = Some x ->
  runAgent w args e cid hs st =
    (Threw x,
     {| trace := trace st ++ [Mkdir (sandbox_of cid) true];
        uuid_calls := uuid_calls st |}).
Proof.
  intros Hmk. unfold runAgent, bind, emit, throw. now rewrite Hmk.
Qed.

(** runAgent never calls fetch. *)
Lemma runAgent_fetches w args e cid hs st :
  fetches (trace (snd (runAgent w args e cid hs st))) = fetches (trace st).
Proof.
  destruct (mkdir_error w) as [x|] eqn:Hmk.
  - rewrite (runAgent_mkdir_fails _ _ _ _ _ _ _ Hmk). cbn [snd trace].
    unfold fetches. rewrite filter_app. simpl. now rewrite app_nil_r.
  - rewrite (runAgent_unfold _ _ _ _ _ _ Hmk). cbn [snd trace].
    unfold fetches. rewrite filter_app. cbn [filter is_fetch].
    fold (fetches (calls (event_loop w hs (spawned args e (sandbox_of cid) hs)
                            (proc_events w)))).
    rewrite event_loop_fetches. simpl. now rewrite app_nil_r.
Qed.

Lemma runAgent_uuid_calls w args e cid hs st :
  uuid_calls (snd (runAgent w args e cid hs st)) = uuid_calls st.
Proof.
  destruct (mkdir_error w) as [x|] eqn:Hmk.
  - now rewrite (runAgent_mkdir_fails _ _ _ _ _ _ _ Hmk).
  - now rewrite (runAgent_unfold _ _ _ _ _ _ Hmk).
Qed.

(** Whatever the process does, runAgent starts with the sandbox directory, the
    spawn and the watchdog. *)
Lemma runAgent_prefix w args e cid hs st :
  mkdir_error w = None ->
  exists rest,
    trace (snd (runAgent w args e cid hs st)) =
      trace st ++
      Mkdir (sandbox_of cid) true ::
      Spawn CURSOR_BIN args (spawn_opts e (sandbox_of cid)) ::
      SetTimeout (times_1000 hs) :: rest.
Proof.
  intros Hmk. rewrite (runAgent_unfold _ _ _ _ _ _ Hmk). cbn [snd trace].
  destruct (event_loop_grows w hs (proc_events w)
              (spawned args e (sandbox_of cid) hs)) as (x & ->).
  exists x. reflexivity.
Qed.

(** The process closes before the deadline: runAgent resolves with what the
    close callback saw. *)
Lemma runAgent_exits w args e cid hs st pre c post :
  mkdir_error w = None ->
  exits w pre c post ->
  exists extra,
    forallb is_clear extra = true /\
    runAgent w args e cid hs st =
      (Done {| code := exit_code_or_1 c;
               stdout := stdout_of pre; stderr := stderr_of pre |},
       {| trace := trace st ++
                   Mkdir (sandbox_of cid) true ::
                   Spawn CURSOR_BIN args (spawn_opts e (sandbox_of cid)) ::
                   SetTimeout (times_1000 hs) :: ClearTimeout :: extra;
          uuid_calls := uuid_calls st |}).
Proof.
  intros Hmk [Hev Hpre].
  rewrite (runAgent_unfold _ _ _ _ _ _ Hmk). cbn zeta.
  rewrite Hev, event_loop_app, (event_loop_output w hs pre _ Hpre).
  cbn [spawned out err timer_armed settled calls].
  change (event_loop w hs ?s (Close c :: post))
    with (event_loop w hs (on_event w hs s (Close c)) post).
  unfold on_event, clearTimeout, call, settle.
  cbn [out err timer_armed settled calls app].
  match goal with
  | |- context [event_loop w hs ?s post] =>
      destruct (event_loop_disarmed w hs post s eq_refl) as (x & Hx & Hc);
      pose proof (settled_sticky w hs post s _ eq_refl) as Hst
  end.
  cbn [calls settled] in Hx, Hst.
  exists x. split; [assumption|].
  unfold verdict. rewrite Hst, Hx. reflexivity.
Qed.

(** The deadline expires first: the callback signals the process group, falls
    back to the child when that throws, and runAgent rejects. *)
Lemma runAgent_expires w args e cid hs st pre post :
  mkdir_error w = None ->
  expires w pre post ->
  exists extra,
    forallb is_clear extra = true /\
    runAgent w args e cid hs st =
      (Threw (Error (timeout_message hs)),
       {| trace := trace st ++
                   Mkdir (sandbox_of cid) true ::
                   Spawn CURSOR_BIN args (spawn_opts e (sandbox_of cid)) ::
                   SetTimeout (times_1000 hs) ::
                   ProcessKill (option_map Z.opp (proc_pid w)) SIGKILL ::
                   (if group_kill_throws w then [ChildKill SIGKILL] else [])
                   ++ extra;
          uuid_calls := uuid_calls st |}).
Proof.
  intros Hmk [Hev Hpre].
  rewrite (runAgent_unfold _ _ _ _ _ _ Hmk). cbn zeta.
  rewrite Hev, event_loop_app, (event_loop_output w hs pre _ Hpre).
  cbn [spawned out err timer_armed settled calls].
  change (event_loop w hs ?s (TimerFired :: post))
    with (event_loop w hs (on_event w hs s TimerFired) post).
  unfold on_event. cbn [timer_armed]. cbv iota.
  unfold on_timeout.
  destruct (group_kill_throws w);
    unfold call, settle; cbn [out err timer_armed settled calls app];
    match goal with
    | |- context [event_loop w hs ?s post] =>
        destruct (event_loop_disarmed w hs post s eq_refl) as (x & Hx & Hc);
        pose proof (settled_sticky w hs post s _ eq_refl) as Hst
    end;
    cbn [calls settled] in Hx, Hst;
    exists x; (split; [assumption|]);
    unfold verdict; rewrite Hst, Hx; reflexivity.
Qed.

End RunFacts.

(** ** The handler as a whole *)

Section WorkerFacts.

Import StringFacts LoopFacts RunFacts.

Local Open Scope list_scope.

Variable parse : string -> option value.
Variable stringify : value -> string.
Variable uuid : nat -> string.

Lemma get_object (v : value) (k : string) :
  nullish v = false -> get v k = Done (prop v k).
Proof. intros H. unfold get. now rewrite H. Qed.

Lemma correlationId_of_run (msg : value) (st : wstate) :
  nullish msg = false ->
  correlationId_of uuid msg st =
    (Done (correlationId_at uuid msg (uuid_calls st)),
     after_correlationId msg st).
Proof.
  intros H. unfold correlationId_of, correlationId_at, after_correlationId,
    bind, lift, ret.
  rewrite (get_object msg _ H).
  destruct (truthy (prop msg "correlation_id")); [now destruct st | reflexivity].
Qed.

Lemma fetch_run (w : world) (url : value) (req : request) (st : wstate) :
  fetch w url req st =
    (answer w url req,
     {| trace := trace st ++ [Fetch url req]; uuid_calls := uuid_calls st |}).
Proof.
  unfold fetch, answer, bind, emit, ret, throw.
  now destruct (fetch_result w url req).
Qed.

Lemma postGitHub_run (w : world) (targets : value) (body : string) (st : wstate) :
  nullish targets = false ->
  postGitHub stringify w targets body st =
    fetch w (VStr (github_url (prop targets "repo") (prop targets "pr")))
      (github_request stringify targets body) st.
Proof.
  intros H. unfold postGitHub, bind, lift. now rewrite !(get_object targets _ H).
Qed.

Lemma postGitHub_null (w : world) (targets : value) (body : string) (st : wstate) :
  nullish targets = true ->
  exists x, postGitHub stringify w targets body st = (Threw x, st).
Proof.
  intros H. unfold postGitHub, bind, lift, get. rewrite H. eauto.
Qed.

(** The two conditions of lines 122 and 125 exclude each other. *)
Lemma github_then_not_slack (msg : value) :
  is_github msg = Done true -> is_slack msg = Done false.
Proof.
  unfold is_github, is_slack.
  destruct (reply_type msg) as [t| |]; try discriminate.
  destruct t; simpl; try discriminate; try reflexivity.
  intros H. injection H as H. now rewrite (github_not_slack _ H).
Qed.

(** Up to the call of runAgent the handler of an accepted invocation does
    nothing but draw the correlation identifier. *)
Lemma worker_accepted (w : world) (event : PubSubEvent) (msg : value)
  (key : string) (st : wstate) :
  accepted parse w event msg key ->
  worker parse stringify uuid w event st =
    match runAgent w (agent_args stringify msg (effective_name msg))
            (env_set "CURSOR_API_KEY" key (process_env w))
            (correlationId_at uuid msg (uuid_calls st))
            (effective_deadline msg) (after_correlationId msg st) with
    | (Done r, st') =>
        if negb (code r =? 0)%Z
        then (Threw (Error ("cursor failed: " ++ slice (stderr r) 0 4000)%string),
              st')
        else dispatch stringify w msg (stdout r) st'
    | (Threw x, st') => (Threw x, st')
    | (Pending, st') => (Pending, st')
    end.
Proof.
  intros (Hd & Hn & Hk & _).
  unfold worker. unfold bind at 1. unfold lift at 1. rewrite Hd.
  unfold bind at 1. unfold lift at 1. rewrite Hk.
  unfold bind at 1. rewrite (correlationId_of_run msg st Hn).
  unfold bind at 1. unfold lift at 1.
  unfold hardSeconds_of. rewrite (get_object msg _ Hn).
  unfold bind at 1. unfold lift at 1.
  unfold agent_name_of. rewrite (get_object msg _ Hn).
  unfold bind at 1.
  fold (hard_seconds_field msg). fold (effective_deadline msg).
  fold (agent_name_field msg). fold (effective_name msg).
  destruct (runAgent _ _ _ _ _ _) as [[r|x|] st']; try reflexivity.
  destruct (negb (code r =? 0)%Z); reflexivity.
Qed.

Lemma fetches_nil_not_in (tr : list effect) (u : value) (r : request) :
  fetches tr = [] -> ~ In (Fetch u r) tr.
Proof.
  intros H Hin.
  assert (Hf : In (Fetch u r) (fetches tr)) by (apply filter_In; now split).
  rewrite H in Hf. exact Hf.
Qed.

(** dispatch makes at most one fetch, as its last act, and the answer to it
    is the result of dispatch. *)
Lemma dispatch_shape (w : world) (msg : value) (body : string) (st : wstate) :
  exists o tr,
    dispatch stringify w msg body st =
      (o, {| trace := trace st ++ tr; uuid_calls := uuid_calls st |}) /\
    (tr = [] \/ exists u r, tr = [Fetch u r] /\ o = answer w u r).
Proof.
  assert (Hsame : forall o : outcome unit,
             exists o' tr,
               (o, st) =
                 (o', {| trace := trace st ++ tr; uuid_calls := uuid_calls st |}) /\
               (tr = [] \/ exists u r, tr = [Fetch u r] /\ o' = answer w u r)).
  { intros o. exists o, []. split; [|now left].
    rewrite app_nil_r. now destruct st. }
  unfold dispatch, bind, lift, ret.
  destruct (is_github msg) as [[|]| |] eqn:Hg; try apply Hsame.
  - destruct (reply_targets msg) as [t| |]; try apply Hsame.
    destruct (nullish t) eqn:Ht.
    + destruct (postGitHub_null w t body st Ht) as (x & ->). apply Hsame.
    + rewrite (postGitHub_run w t body st Ht), fetch_run.
      rewrite (github_then_not_slack msg Hg).
      exists (answer w (VStr (github_url (prop t "repo") (prop t "pr")))
                (github_request stringify t body)),
        [Fetch (VStr (github_url (prop t "repo") (prop t "pr")))
           (github_request stringify t body)].
      split; [|right; eauto].
      unfold answer. now destruct (fetch_result w _ _).
  - destruct (is_slack msg) as [[|]| |]; try apply Hsame.
    destruct (reply_targets msg) as [t| |]; try apply Hsame.
    destruct (get t "response_url") as [url| |]; try apply Hsame.
    rewrite fetch_run. eexists _, [_]. split; [reflexivity|right; eauto].
Qed.

Lemma dispatch_fetch_decides (w : world) (msg : value) (body : string)
  (st : wstate) (u : value) (r : request) :
  fetches (trace st) = [] ->
  In (Fetch u r) (trace (snd (dispatch stringify w msg body st))) ->
  dispatch stringify w msg body st =
    (answer w u r,
     {| trace := trace st ++ [Fetch u r]; uuid_calls := uuid_calls st |}).
Proof.
  intros Hst.
  pose proof (fetches_nil_not_in (trace st) u r Hst) as Hno.
  destruct (dispatch_shape w msg body st) as (o & tr & -> & [->|(u0 & r0 & -> & ->)]);
    cbn [snd trace]; intros Hin.
  - rewrite app_nil_r in Hin. contradiction.
  - apply in_app_or in Hin as [Hin|[Hin|[]]]; [contradiction|].
    now injection Hin as -> ->.
Qed.

Lemma dispatch_grows (w : world) (msg : value) (body : string) (st : wstate) :
  exists tr,
    trace (snd (dispatch stringify w msg body st)) = trace st ++ tr.
Proof.
  destruct (dispatch_shape w msg body st) as (o & tr & -> & _).
  now exists tr.
Qed.

(** An accepted invocation creates the sandbox, spawns the agent with the
    effective name and arms the watchdog with the effective deadline. *)
Lemma worker_accepted_prefix (w : world) (event : PubSubEvent) (msg : value)
  (key : string) (n : nat) :
  accepted parse w event msg key ->
  exists rest,
    trace (snd (worker parse stringify uuid w event (start n))) =
      Mkdir (sandbox_of (correlationId_at uuid msg n)) true ::
      Spawn CURSOR_BIN (agent_args stringify msg (effective_name msg))
        (spawn_opts (env_set "CURSOR_API_KEY" key (process_env w))
           (sandbox_of (correlationId_at uuid msg n))) ::
      SetTimeout (times_1000 (effective_deadline msg)) :: rest.
Proof.
  intros Hacc. rewrite (worker_accepted w event msg key (start n) Hacc).
  destruct Hacc as (_ & _ & _ & Hmk).
  cbn [start uuid_calls].
  destruct (runAgent_prefix w (agent_args stringify msg (effective_name msg))
              (env_set "CURSOR_API_KEY" key (process_env w))
              (correlationId_at uuid msg n) (effective_deadline msg)
              (after_correlationId msg {| trace := []; uuid_calls := n |}) Hmk)
    as (rest & Hrest).
  cbn [after_correlationId trace app] in Hrest.
  destruct (runAgent _ _ _ _ _ _) as [[r|x|] st']; cbn [snd] in *;
    try (now exists rest).
  destruct (negb (code r =? 0)%Z); cbn [snd]; [now exists rest|].
  destruct (dispatch_grows w msg (stdout r) st') as (tr & ->).
  rewrite Hrest. exists (rest ++ tr). reflexivity.
Qed.

(** An accepted invocation whose process closes before the deadline: the
    handler raises on a non-zero code and dispatches otherwise. *)
Lemma worker_exits (w : world) (event : PubSubEvent) (msg : value)
  (key : string) (n : nat) pre c post :
  accepted parse w event msg key ->
  exits w pre c post ->
  exists st',
    fetches (trace st') = [] /\
    worker parse stringify uuid w event (start n) =
      if negb (exit_code_or_1 c =? 0)%Z
      then (Threw (Error ("cursor failed: " ++ slice (stderr_of pre) 0 4000)%string),
            st')
      else dispatch stringify w msg (stdout_of pre) st'.
Proof.
  intros Hacc Hex. rewrite (worker_accepted w event msg key (start n) Hacc).
  destruct Hacc as (_ & _ & _ & Hmk).
  destruct (runAgent_exits w (agent_args stringify msg (effective_name msg))
              (env_set "CURSOR_API_KEY" key (process_env w))
              (correlationId_at uuid msg (uuid_calls (start n)))
              (effective_deadline msg) (after_correlationId msg (start n))
              pre c post Hmk Hex) as (extra & Hclear & Hrun).
  pose proof (runAgent_fetches w (agent_args stringify msg (effective_name msg))
              (env_set "CURSOR_API_KEY" key (process_env w))
              (correlationId_at uuid msg (uuid_calls (start n)))
              (effective_deadline msg) (after_correlationId msg (start n)))
    as Hf.
  rewrite Hrun in *. cbn [snd code stdout stderr] in *.
  eexists. split; [exact Hf | reflexivity].
Qed.

(** Before dispatch the handler makes no fetch; if it gets to dispatch, the
    process had closed with code 0. *)
Lemma worker_shape (w : world) (event : PubSubEvent) (st : wstate) :
  fetches (trace st) = [] ->
  fetches (trace (snd (worker parse stringify uuid w event st))) = [] \/
  exists msg r st',
    fetches (trace st') = [] /\ code r = 0%Z /\
    worker parse stringify uuid w event st =
      dispatch stringify w msg (stdout r) st'.
Proof.
  intros Hst. unfold worker, bind, lift.
  destruct (decode parse event) as [msg| |]; [|now left..].
  destruct (api_key w) as [key| |]; [|now left..].
  unfold correlationId_of, bind, lift, ret.
  destruct (get msg "correlation_id") as [given| |]; [|now left..].
  destruct (truthy given);
    (destruct (hardSeconds_of msg) as [hs| |]; [|now left..]);
    (destruct (agent_name_of msg) as [name| |]; [|now left..]);
    match goal with
    | |- context [runAgent w ?a ?e ?c hs ?s] =>
        pose proof (runAgent_fetches w a e c hs s) as Hf;
        destruct (runAgent w a e c hs s) as [[r|x|] st']
    end; cbn [snd trace] in Hf; rewrite Hst in Hf;
    try (left; exact Hf);
    (destruct (Z.eqb_spec (code r) 0) as [Hc|Hc]; cbn [negb];
     [right; exists msg, r, st'; repeat split; assumption
     |left; exact Hf]).
Qed.

End WorkerFacts.

(** ** Properties of the task execution core *)

Section Claims.

Import StringFacts LoopFacts RunFacts.

Local Open Scope list_scope.

Variable parse : string -> option value.
Variable stringify : value -> string.
Variable uuid : nat -> string.

(** C1, as the code has it: sandbox acquisition validates nothing.  For every
    correlationId that a template literal renders (a string above all), one
    with a path separator or a parent-directory sequence included, runAgent
    first calls recursive directory creation on [/tmp/<correlationId>]; it
    fails at that step only with what mkdirSync throws, and otherwise spawns
    the agent with that directory as its working directory. *)
Theorem C1_sandbox_is_not_validated (w : world) (args : list value)
  (e : list (string * string)) (cid hs : value) (st : wstate) :
  printable cid = true ->
  exists rest,
    trace (snd (runAgent w args e cid hs st)) =
      trace st ++ Mkdir ("/tmp/" ++ ToString cid)%string true :: rest /\
    match mkdir_error w with
    | Some x => fst (runAgent w args e cid hs st) = Threw x /\ rest = []
    | None =>
        exists rest',
          rest = Spawn CURSOR_BIN args
                   (spawn_opts e ("/tmp/" ++ ToString cid)%string) :: rest'
    end.
Proof.
  intros _.
  destruct (mkdir_error w) as [x|] eqn:Hmk.
  - rewrite (runAgent_mkdir_fails w args e cid hs st x Hmk).
    exists []. now repeat split.
  - destruct (runAgent_prefix w args e cid hs st Hmk) as (rest & Hrest).
    eexists. split; [exact Hrest|]. eexists. reflexivity.
Qed.

(** C2, as the code has it: an envelope whose payload lacks agent.name is not
    rejected.  Whenever the data field is present, not empty and parses,
    decoding succeeds; with agent.name absent or null the agent name is
    "default", and the handler goes on to create the sandbox, named by the
    correlation_id of the message if a template literal renders it, and to
    spawn the agent with the arguments --name default --input <message>. *)
Theorem C2_missing_agent_name_defaults (w : world) (event : PubSubEvent)
  (d : PubSubData) (m : PubSubMessage) (b : string) (msg : value)
  (key : string) (n : nat) :
  data event = Some d -> message d = Some m -> payload m = Some b ->
  b <> ""%string -> parse b = Some msg ->
  nullish msg = false ->
  nullish (agent_name_field msg) = true ->
  printable (prop msg "correlation_id") = true ->
  api_key w = Done key ->
  mkdir_error w = None ->
  decode parse event = Done msg /\
  exists rest,
    trace (snd (worker parse stringify uuid w event (start n))) =
      Mkdir (sandbox_of (correlationId_at uuid msg n)) true ::
      Spawn CURSOR_BIN
        [VStr "--name"; VStr "default"; VStr "--input"; VStr (stringify msg)]
        (spawn_opts (env_set "CURSOR_API_KEY" key (process_env w))
           (sandbox_of (correlationId_at uuid msg n))) ::
      rest.
Proof.
  intros Hd Hm Hp Hb Hparse Hmsg Hname _ Hkey Hmk.
  assert (Hdec : decode parse event = Done msg).
  { unfold decode. rewrite Hd, Hm, Hp.
    destruct (String.eqb_spec b "") as [->|_]; [contradiction|].
    now rewrite Hparse. }
  split; [exact Hdec|].
  destruct (worker_accepted_prefix parse stringify uuid w event msg key n)
    as (rest & Hrest); [now repeat split|].
  rewrite Hrest. unfold effective_name, coalesce. rewrite Hname.
  eexists. reflexivity.
Qed.

(** C3, as the code has it: the default of 900 seconds applies only when
    timeouts.hard_seconds is absent or null.  Any other value the message
    carries is the deadline the handler works with; when it is an integer,
    zero and the negative ones included, whose product with 1000 is a safe
    integer, the watchdog is armed with exactly that many milliseconds (with
    900000 by default).  The sandbox step comes first, so the correlation_id
    of the message must be one a template literal converts. *)
Theorem C3_deadline_defaults_only_when_absent (w : world)
  (event : PubSubEvent) (msg : value) (key : string) (n : nat) :
  accepted parse w event msg key ->
  conversion_throws (prop msg "correlation_id") = false ->
  let deadline :=
    if nullish (hard_seconds_field msg)
    then VNum 900 else hard_seconds_field msg in
  hardSeconds_of msg = Done deadline /\
  forall seconds : Z,
    deadline = VNum seconds ->
    (Z.abs (seconds * 1000) <= 9007199254740991)%Z ->
    In (SetTimeout (Some (seconds * 1000)%Z))
      (trace (snd (worker parse stringify uuid w event (start n)))).
Proof.
  intros Hacc _ deadline.
  destruct (worker_accepted_prefix parse stringify uuid w event msg key n Hacc)
    as (rest & Hrest).
  destruct Hacc as (_ & Hmsg & _ & _).
  split.
  - unfold hardSeconds_of. now rewrite (get_object msg _ Hmsg).
  - intros seconds Hdl Hsafe. rewrite Hrest. right. right. left.
    change (effective_deadline msg) with deadline. rewrite Hdl.
    unfold times_1000, safe_integer.
    destruct (Z.leb_spec (Z.abs (seconds * 1000)) 9007199254740991);
      [reflexivity | lia].
Qed.

(** C4: when the deadline expires while the spawned process has neither
    closed nor failed, runAgent sends SIGKILL to the process group (the
    negated pid); if that call throws it kills the child directly, and only
    then; and the promise is rejected with the timeout error. *)
Theorem C4_deadline_kills_group_and_rejects (w : world) (args : list value)
  (e : list (string * string)) (cid hs : value) (st : wstate)
  (pre post : list proc_event) (pid : Z) :
  mkdir_error w = None ->
  proc_pid w = Some pid ->
  expires w pre post ->
  fst (runAgent w args e cid hs st) =
    Threw (Error ("cursor-agent exceeded " ++ ToString hs ++ "s hard timeout")%string) /\
  exists before after,
    trace (snd (runAgent w args e cid hs st)) =
      before ++
      ProcessKill (Some (- pid)%Z) SIGKILL ::
      (if group_kill_error w then [ChildKill SIGKILL] else []) ++ after /\
    forallb is_clear after = true.
Proof.
  intros Hmk Hpid Hexp.
  destruct (runAgent_expires w args e cid hs st pre post Hmk Hexp)
    as (extra & Hclear & ->).
  split; [reflexivity|].
  cbn [snd trace]. unfold group_kill_throws. rewrite Hpid. cbn [option_map].
  exists (trace st ++
          [Mkdir (sandbox_of cid) true;
           Spawn CURSOR_BIN args (spawn_opts e (sandbox_of cid));
           SetTimeout (times_1000 hs)]), extra.
  split; [|exact Hclear].
  rewrite <- app_assoc. reflexivity.
Qed.

(** C5, as the code has it: after the process closed with code 0, the answer
    to the sink call decides how the invocation ends.  A response of any
    status, 2xx or not, lets the handler complete with nothing reported; a
    network error of the call is raised by the handler.  The call is the last
    thing the handler does. *)
Theorem C5_sink_answer_decides (w : world) (event : PubSubEvent) (n : nat)
  (url : value) (req : request) :
  In (Fetch url req)
    (trace (snd (worker parse stringify uuid w event (start n)))) ->
  fst (worker parse stringify uuid w event (start n)) =
    match fetch_result w url req with
    | Response _ => Done tt
    | NetworkError x => Threw x
    end /\
  exists before,
    trace (snd (worker parse stringify uuid w event (start n))) =
      before ++ [Fetch url req] /\
    fetches before = [].
Proof.
  intros Hin.
  destruct (worker_shape parse stringify uuid w event (start n) eq_refl)
    as [Hnone|(msg & r & st' & Hst' & _ & Heq)].
  - exfalso. exact (fetches_nil_not_in _ url req Hnone Hin).
  - rewrite Heq in Hin |- *.
    rewrite (dispatch_fetch_decides stringify w msg (stdout r) st' url req Hst' Hin).
    split; [reflexivity|]. exists (trace st'). now split.
Qed.

(** C6: when the process closes with a non-zero code before the deadline, the
    handler raises an error whose message is "cursor failed: " followed by
    the first 4000 characters of stderr at most, and calls no sink. *)
Theorem C6_agent_failure_raises_without_dispatch (w : world)
  (event : PubSubEvent) (msg : value) (key : string) (n : nat)
  (pre post : list proc_event) (c : option Z) :
  accepted parse w event msg key ->
  exits w pre c post ->
  exit_code_or_1 c <> 0%Z ->
  let shown := slice (stderr_of pre) 0 4000 in
  fst (worker parse stringify uuid w event (start n)) =
    Threw (Error ("cursor failed: " ++ shown)%string) /\
  (strlen shown <= 4000)%N /\
  (exists rest, stderr_of pre = (shown ++ rest)%string) /\
  fetches (trace (snd (worker parse stringify uuid w event (start n)))) = [].
Proof.
  intros Hacc Hex Hc shown.
  destruct (worker_exits parse stringify uuid w event msg key n pre c post
              Hacc Hex) as (st' & Hst' & ->).
  destruct (Z.eqb_spec (exit_code_or_1 c) 0) as [H0|_]; [contradiction|].
  cbn [negb fst snd]. repeat split.
  - unfold shown. rewrite strlen_slice_0 by lia. lia.
  - apply slice_0_prefix. lia.
  - exact Hst'.
Qed.

(** C8: after the process closed with code 0, a reply of type slack.message
    makes the handler post to the response URL a text that is stdout cut to
    its first 39000 characters: never longer than 39000, for a stdout of
    50000 characters exactly 39000 and so shorter than stdout.  The cut raises
    nothing: the invocation ends as the sink call ends. *)
Theorem C8_chat_text_is_truncated (w : world) (event : PubSubEvent)
  (msg : value) (key : string) (n : nat) (pre post : list proc_event)
  (targets : value) :
  accepted parse w event msg key ->
  exits w pre (Some 0%Z) post ->
  prop (prop msg "reply") "type" = VStr "slack.message" ->
  prop (prop msg "reply") "targets" = targets ->
  nullish targets = false ->
  let text := slice (stdout_of pre) 0 39000 in
  let url := prop targets "response_url" in
  let req :=
    {| req_method := "POST";
       req_headers := [("Content-Type", "application/json")];
       req_body := stringify (VObj [("text", VStr text)]) |} in
  fst (worker parse stringify uuid w event (start n)) =
    match fetch_result w url req with
    | Response _ => Done tt
    | NetworkError x => Threw x
    end /\
  (exists before,
     trace (snd (worker parse stringify uuid w event (start n))) =
       before ++ [Fetch url req] /\
     fetches before = []) /\
  text = take 39000 (stdout_of pre) /\
  (strlen text <= 39000)%N /\
  (strlen (stdout_of pre) = 50000%N ->
   strlen text = 39000%N /\ (strlen text < strlen (stdout_of pre))%N).
Proof.
  intros Hacc Hex Htype Htargets Hnn text url req.
  destruct (worker_exits parse stringify uuid w event msg key n pre
              (Some 0%Z) post Hacc Hex) as (st' & Hst' & ->).
  cbn [exit_code_or_1 Z.eqb negb].
  assert (Hreply : nullish (prop msg "reply") = false).
  { destruct (prop msg "reply"); try reflexivity; discriminate Htype. }
  destruct Hacc as (_ & Hmsg & _ & _).
  assert (Hrun : dispatch stringify w msg (stdout_of pre) st' =
                 (answer w url req,
                  {| trace := trace st' ++ [Fetch url req];
                     uuid_calls := uuid_calls st' |})).
  { unfold dispatch, bind, lift, ret.
    unfold is_github, is_slack, reply_type, reply_targets.
    rewrite (get_object msg _ Hmsg).
    unfold opt_prop. rewrite Hreply, Htype. cbn -[slice].
    rewrite (get_object _ "targets" Hreply), Htargets.
    rewrite (get_object targets _ Hnn).
    apply fetch_run. }
  rewrite Hrun. cbn [fst snd trace].
  assert (Hlen : strlen text = N.min 39000 (strlen (stdout_of pre))).
  { unfold text. rewrite strlen_slice_0 by lia. reflexivity. }
  repeat split.
  - exists (trace st'). now split.
  - unfold text. now rewrite slice_0 by lia.
  - lia.
  - lia.
  - lia.
Qed.

(** C9: after the process closed with code 0, a reply whose type starts with
    "github.", whatever follows the prefix, makes the handler post to the
    issue-comments endpoint of the repository a comment whose body is the
    whole of stdout.  The reply names its targets, and their repo, pr and
    token are values a template literal renders. *)
Theorem C9_github_prefix_posts_full_stdout (w : world) (event : PubSubEvent)
  (msg : value) (key : string) (n : nat) (pre post : list proc_event)
  (kind : string) (targets : value) :
  accepted parse w event msg key ->
  exits w pre (Some 0%Z) post ->
  prop (prop msg "reply") "type" = VStr kind ->
  startsWith kind "github." = true ->
  prop (prop msg "reply") "targets" = targets ->
  nullish targets = false ->
  printable (prop targets "repo") = true ->
  printable (prop targets "pr") = true ->
  printable (prop targets "token") = true ->
  let url :=
    VStr ("https://api.github.com/repos/" ++ ToString (prop targets "repo")
          ++ "/issues/" ++ ToString (prop targets "pr") ++ "/comments")%string in
  let req :=
    {| req_method := "POST";
       req_headers :=
         [("Authorization", ("Bearer " ++ ToString (prop targets "token"))%string);
          ("Accept", "application/vnd.github+json");
          ("Content-Type", "application/json")];
       req_body := stringify (VObj [("body", VStr (stdout_of pre))]) |} in
  fst (worker parse stringify uuid w event (start n)) =
    match fetch_result w url req with
    | Response _ => Done tt
    | NetworkError x => Threw x
    end /\
  exists before,
    trace (snd (worker parse stringify uuid w event (start n))) =
      before ++ [Fetch url req] /\
    fetches before = [].
Proof.
  intros Hacc Hex Htype Hkind Htargets Hnn _ _ _ url req.
  destruct (worker_exits parse stringify uuid w event msg key n pre
              (Some 0%Z) post Hacc Hex) as (st' & Hst' & ->).
  cbn [exit_code_or_1 Z.eqb negb].
  assert (Hreply : nullish (prop msg "reply") = false).
  { destruct (prop msg "reply"); try reflexivity; discriminate Htype. }
  destruct Hacc as (_ & Hmsg & _ & _).
  assert (Hrun : dispatch stringify w msg (stdout_of pre) st' =
                 (answer w url req,
                  {| trace := trace st' ++ [Fetch url req];
                     uuid_calls := uuid_calls st' |})).
  { unfold dispatch, bind, lift, ret.
    unfold is_github, is_slack, reply_type, reply_targets.
    rewrite (get_object msg _ Hmsg).
    unfold opt_prop. rewrite Hreply, Htype. cbn [nullish]. rewrite Hkind.
    rewrite (get_object _ "targets" Hreply), Htargets.
    rewrite (postGitHub_run stringify w targets (stdout_of pre) st' Hnn).
    rewrite fetch_run, (github_not_slack kind Hkind).
    fold url. fold req. change (github_request stringify targets (stdout_of pre)) with req.
    change (VStr (github_url (prop targets "repo") (prop targets "pr"))) with url.
    unfold answer. now destruct (fetch_result w url req). }
  rewrite Hrun. cbn [fst snd trace].
  split; [reflexivity|]. exists (trace st'). now split.
Qed.

(** C10: when the process closes before the deadline with a null exit code,
    runAgent resolves with code 1, and the handler of an accepted invocation
    raises the failure of a non-zero code. *)
Theorem C10_null_exit_code_is_failure (w : world) (args : list value)
  (e : list (string * string)) (cid hs : value) (st : wstate)
  (pre post : list proc_event) :
  mkdir_error w = None ->
  exits w pre None post ->
  fst (runAgent w args e cid hs st) =
    Done {| code := 1; stdout := stdout_of pre; stderr := stderr_of pre |} /\
  forall (event : PubSubEvent) (msg : value) (key : string) (n : nat),
    accepted parse w event msg key ->
    fst (worker parse stringify uuid w event (start n)) =
      Threw (Error ("cursor failed: " ++ slice (stderr_of pre) 0 4000)%string).
Proof.
  intros Hmk Hex. split.
  - destruct (runAgent_exits w args e cid hs st pre None post Hmk Hex)
      as (extra & _ & ->).
    reflexivity.
  - intros event msg key n Hacc.
    destruct (worker_exits parse stringify uuid w event msg key n pre None post
                Hacc Hex) as (st' & _ & ->).
    reflexivity.
Qed.

End Claims.

(** ** The properties at sample inputs *)

Module Instances.

Import StringFacts.

Local Open Scope list_scope.

Lemma sample_uuid_not_empty (k : nat) : Sample.uuid k <> ""%string.
Proof. unfold Sample.uuid. discriminate. Qed.

Lemma sample_accepted (b : string) (msg : value) (events : list proc_event)
  (sink : value -> request -> fetch_outcome) :
  Sample.parse b = Some msg ->
  (b =? "")%string = false ->
  nullish msg = false ->
  accepted Sample.parse (Sample.world_of events sink) (Sample.event_of b)
    msg "key-1".
Proof.
  intros Hp Hb Hn. repeat split; try assumption.
  unfold decode. cbn [Sample.event_of data message payload].
  now rewrite Hb, Hp.
Qed.

(** C1 fails as stated: with the correlation_id ../../etc the invocation
    completes, and its first act is to create /tmp/../../etc. *)
Lemma C1_traversal_directory_is_created :
  unsafe_segment "../../etc" = true /\
  mkdir_error Sample.world_ok = None /\
  fst (worker Sample.parse Sample.stringify Sample.uuid Sample.world_ok
         (Sample.event_of Sample.b64_traversal) (start 0)) = Done tt /\
  hd_error
    (trace (snd (worker Sample.parse Sample.stringify Sample.uuid
                   Sample.world_ok (Sample.event_of Sample.b64_traversal)
                   (start 0)))) =
    Some (Mkdir "/tmp/../../etc" true).
Proof. vm_compute. repeat split. Qed.

Lemma C1_witness :
  printable (VStr "../../etc") = true /\
  exists rest,
    trace (snd (runAgent Sample.world_ok [VStr "--name"; VStr "x"] []
                  (VStr "../../etc") (VNum 900) (start 0))) =
      Mkdir "/tmp/../../etc" true :: rest /\
    exists rest',
      rest = Spawn CURSOR_BIN [VStr "--name"; VStr "x"]
               (spawn_opts [] "/tmp/../../etc") :: rest'.
Proof.
  split; [reflexivity|].
  exact (C1_sandbox_is_not_validated Sample.world_ok [VStr "--name"; VStr "x"]
           [] (VStr "../../etc") (VNum 900) (start 0) eq_refl).
Defined.

(** C2 fails as stated: the payload {} has no agent.name, yet it decodes and
    the agent is spawned under the name default. *)
Lemma C2_nameless_envelope_runs :
  decode Sample.parse (Sample.event_of Sample.b64_empty) = Done (VObj []) /\
  agent_name_field (VObj []) = VUndefined /\
  fst (worker Sample.parse Sample.stringify Sample.uuid Sample.world_ok
         (Sample.event_of Sample.b64_empty) (start 0)) = Done tt /\
  trace (snd (worker Sample.parse Sample.stringify Sample.uuid Sample.world_ok
                (Sample.event_of Sample.b64_empty) (start 0))) =
    [Mkdir "/tmp/uuid-0" true;
     Spawn "cursor-agent"
       [VStr "--name"; VStr "default"; VStr "--input"; VStr "{}"]
       {| cwd := "/tmp/uuid-0";
          env := [("PATH", "/usr/bin"); ("CURSOR_API_KEY", "key-1");
                  ("HOME", "/tmp/uuid-0");
                  ("XDG_CACHE_HOME", "/tmp/uuid-0/.cache");
                  ("XDG_CONFIG_HOME", "/tmp/uuid-0/.config")]%string;
          shell := false; detached := true |};
     SetTimeout (Some 900000%Z);
     ClearTimeout].
Proof. vm_compute. repeat split. Qed.

Lemma C2_witness :
  nullish (agent_name_field Sample.msg_empty) = true /\
  decode Sample.parse (Sample.event_of Sample.b64_empty) = Done Sample.msg_empty /\
  exists rest,
    trace (snd (worker Sample.parse Sample.stringify Sample.uuid Sample.world_ok
                  (Sample.event_of Sample.b64_empty) (start 0))) =
      Mkdir (sandbox_of (correlationId_at Sample.uuid Sample.msg_empty 0)) true ::
      Spawn CURSOR_BIN
        [VStr "--name"; VStr "default"; VStr "--input";
         VStr (Sample.stringify Sample.msg_empty)]
        (spawn_opts
           (env_set "CURSOR_API_KEY" "key-1" (process_env Sample.world_ok))
           (sandbox_of (correlationId_at Sample.uuid Sample.msg_empty 0))) ::
      rest.
Proof.
  split; [reflexivity|].
  apply (C2_missing_agent_name_defaults Sample.parse Sample.stringify
           Sample.uuid Sample.world_ok (Sample.event_of Sample.b64_empty)
           {| message := Some {| payload := Some Sample.b64_empty |} |}
           {| payload := Some Sample.b64_empty |}
           Sample.b64_empty Sample.msg_empty "key-1" 0);
    try reflexivity; try discriminate.
Defined.

(** C3 fails as stated: with hard_seconds 0 the handler works with a deadline
    of 0 seconds, arms the watchdog with 0 ms and is timed out by it. *)
Lemma C3_zero_deadline_is_used :
  hard_seconds_field Sample.msg_zero_deadline = VNum 0 /\
  hardSeconds_of Sample.msg_zero_deadline = Done (VNum 0) /\
  In (SetTimeout (Some 0%Z))
    (trace (snd (worker Sample.parse Sample.stringify Sample.uuid
                   Sample.world_timeout
                   (Sample.event_of Sample.b64_zero_deadline) (start 0)))) /\
  fst (worker Sample.parse Sample.stringify Sample.uuid Sample.world_timeout
         (Sample.event_of Sample.b64_zero_deadline) (start 0)) =
    Threw (Error "cursor-agent exceeded 0s hard timeout").
Proof.
  vm_compute. repeat split. right. right. left. reflexivity.
Qed.

Lemma C3_witness :
  accepted More.parse Sample.world_timeout
    (Sample.event_of More.b64_negative_deadline) More.msg_negative_deadline
    "key-1" /\
  hardSeconds_of More.msg_negative_deadline = Done (VNum (-5)) /\
  In (SetTimeout (Some (-5000)%Z))
    (trace (snd (worker More.parse Sample.stringify Sample.uuid
                   Sample.world_timeout
                   (Sample.event_of More.b64_negative_deadline) (start 0)))).
Proof.
  assert (Hacc : accepted More.parse Sample.world_timeout
                   (Sample.event_of More.b64_negative_deadline)
                   More.msg_negative_deadline "key-1")
    by (repeat split).
  split; [exact Hacc|].
  destruct (C3_deadline_defaults_only_when_absent More.parse Sample.stringify
              Sample.uuid Sample.world_timeout
              (Sample.event_of More.b64_negative_deadline)
              More.msg_negative_deadline "key-1" 0 Hacc eq_refl)
    as (Hdeadline & Harmed).
  split; [exact Hdeadline|].
  apply (Harmed (-5)%Z); [reflexivity|]. vm_compute. discriminate.
Defined.

Lemma C4_witness :
  expires Sample.world_timeout [StdoutData "partial"] [Close None] /\
  fst (runAgent Sample.world_timeout [VStr "--name"; VStr "x"] []
         (VStr "task-1") (VNum 1) (start 0)) =
    Threw (Error "cursor-agent exceeded 1s hard timeout") /\
  exists before after,
    trace (snd (runAgent Sample.world_timeout [VStr "--name"; VStr "x"] []
                  (VStr "task-1") (VNum 1) (start 0))) =
      before ++ ProcessKill (Some (-4242)%Z) SIGKILL :: [] ++ after /\
    forallb is_clear after = true.
Proof.
  assert (Hexp : expires Sample.world_timeout [StdoutData "partial"]
                   [Close None]) by (split; reflexivity).
  split; [exact Hexp|].
  exact (C4_deadline_kills_group_and_rejects Sample.world_timeout
           [VStr "--name"; VStr "x"] [] (VStr "task-1") (VNum 1) (start 0)
           [StdoutData "partial"] [Close None] 4242%Z
           eq_refl eq_refl Hexp).
Defined.

(** C5 fails as stated: the process exits 0, the comment cannot be posted,
    and the invocation ends with the network error raised. *)
Lemma C5_network_error_fails_invocation :
  exits Sample.world_unreachable [StdoutData "LGTM"] (Some 0%Z) [] /\
  fst (worker Sample.parse Sample.stringify Sample.uuid
         Sample.world_unreachable (Sample.event_of Sample.b64_github)
         (start 0)) = Threw (FetchError "ECONNRESET").
Proof. vm_compute. repeat split. Qed.

Lemma C5_witness :
  fst (worker Sample.parse Sample.stringify Sample.uuid Sample.world_refused
         (Sample.event_of Sample.b64_github) (start 0)) = Done tt /\
  exists before,
    trace (snd (worker Sample.parse Sample.stringify Sample.uuid
                  Sample.world_refused (Sample.event_of Sample.b64_github)
                  (start 0))) =
      before ++
      [Fetch Sample.review_url
         (github_request Sample.stringify Sample.github_targets "LGTM")] /\
    fetches before = [].
Proof.
  apply (C5_sink_answer_decides Sample.parse Sample.stringify Sample.uuid
           Sample.world_refused (Sample.event_of Sample.b64_github) 0
           Sample.review_url
           (github_request Sample.stringify Sample.github_targets "LGTM")).
  vm_compute. do 4 right. left. reflexivity.
Defined.

Lemma C6_witness :
  exits Sample.world_failed [StderrData "boom"] (Some 2%Z) [] /\
  fst (worker Sample.parse Sample.stringify Sample.uuid Sample.world_failed
         (Sample.event_of Sample.b64_plain) (start 0)) =
    Threw (Error "cursor failed: boom") /\
  fetches (trace (snd (worker Sample.parse Sample.stringify Sample.uuid
                         Sample.world_failed (Sample.event_of Sample.b64_plain)
                         (start 0)))) = [].
Proof.
  assert (Hex : exits Sample.world_failed [StderrData "boom"] (Some 2%Z) [])
    by (split; reflexivity).
  split; [exact Hex|].
  destruct (C6_agent_failure_raises_without_dispatch Sample.parse
              Sample.stringify Sample.uuid Sample.world_failed
              (Sample.event_of Sample.b64_plain) Sample.msg_plain "key-1" 0
              [StderrData "boom"] [] (Some 2%Z))
    as (Hthrow & _ & _ & Hnone).
  - apply sample_accepted; reflexivity.
  - exact Hex.
  - discriminate.
  - split; [exact Hthrow | exact Hnone].
Defined.

Lemma C8_witness :
  strlen (stdout_of [StdoutData (Sample.filler 50000)]) = 50000%N /\
  strlen (slice (stdout_of [StdoutData (Sample.filler 50000)]) 0 39000) = 39000%N /\
  fst (worker Sample.parse Sample.stringify Sample.uuid Sample.world_long
         (Sample.event_of Sample.b64_slack) (start 0)) = Done tt.
Proof.
  assert (Hlen : strlen (stdout_of [StdoutData (Sample.filler 50000)]) = 50000%N)
    by (vm_compute; reflexivity).
  split; [exact Hlen|].
  destruct (C8_chat_text_is_truncated Sample.parse Sample.stringify Sample.uuid
              Sample.world_long (Sample.event_of Sample.b64_slack)
              Sample.msg_slack "key-1" 0
              [StdoutData (Sample.filler 50000)] []
              (VObj [("response_url", VStr "https://hooks.slack.example/r/1")]))
    as (Hend & _ & _ & _ & Hcut).
  - apply sample_accepted; reflexivity.
  - split; reflexivity.
  - reflexivity.
  - reflexivity.
  - reflexivity.
  - split; [exact (proj1 (Hcut Hlen)) | exact Hend].
Defined.

Lemma C9_witness :
  startsWith "github.issue" "github." = true /\
  fst (worker Sample.parse Sample.stringify Sample.uuid Sample.world_refused
         (Sample.event_of Sample.b64_github_issue) (start 0)) = Done tt /\
  exists before,
    trace (snd (worker Sample.parse Sample.stringify Sample.uuid
                  Sample.world_refused
                  (Sample.event_of Sample.b64_github_issue) (start 0))) =
      before ++
      [Fetch Sample.review_url
         {| req_method := "POST";
            req_headers := [("Authorization", "Bearer t0k");
                            ("Accept", "application/vnd.github+json");
                            ("Content-Type", "application/json")]%string;
            req_body := Sample.stringify (VObj [("body", VStr "LGTM")]) |}] /\
    fetches before = [].
Proof.
  split; [reflexivity|].
  apply (C9_github_prefix_posts_full_stdout Sample.parse Sample.stringify
           Sample.uuid Sample.world_refused
           (Sample.event_of Sample.b64_github_issue) Sample.msg_github_issue
           "key-1" 0 [StdoutData "LGTM"] [] "github.issue"
           Sample.github_targets).
  - apply sample_accepted; reflexivity.
  - split; reflexivity.
  - reflexivity.
  - reflexivity.
  - reflexivity.
  - reflexivity.
  - reflexivity.
  - reflexivity.
  - reflexivity.
Defined.

Lemma C10_witness :
  exits Sample.world_killed [StderrData "oom"] None [] /\
  fst (runAgent Sample.world_killed [VStr "--name"; VStr "x"] []
         (VStr "task-1") (VNum 900) (start 0)) =
    Done {| code := 1; stdout := ""; stderr := "oom" |} /\
  fst (worker Sample.parse Sample.stringify Sample.uuid Sample.world_killed
         (Sample.event_of Sample.b64_plain) (start 0)) =
    Threw (Error "cursor failed: oom").
Proof.
  assert (Hex : exits Sample.world_killed [StderrData "oom"] None [])
    by (split; reflexivity).
  split; [exact Hex|].
  destruct (C10_null_exit_code_is_failure Sample.parse Sample.stringify
              Sample.uuid Sample.world_killed [VStr "--name"; VStr "x"] []
              (VStr "task-1") (VNum 900) (start 0) [StderrData "oom"] []
              eq_refl Hex) as (Hrun & Hworker).
  split; [exact Hrun|].
  apply (Hworker (Sample.event_of Sample.b64_plain) Sample.msg_plain "key-1" 0).
  apply sample_accepted; reflexivity.
Defined.

End Instances.

(** ** Further facts about the callbacks, the environment and the handler *)

Module ExtraFacts.

Import StringFacts LoopFacts RunFacts.

Local Open Scope list_scope.

Lemma env_get_set_same (k v : string) (e : list (string * string)) :
  env_get k (env_set k v e) = Some v.
Proof.
  induction e as [|[k' v'] e IH]; simpl.
  - now rewrite String.eqb_refl.
  - destruct (String.eqb_spec k' k) as [->|Hk]; simpl.
    + now rewrite String.eqb_refl.
    + destruct (String.eqb_spec k' k); [contradiction | exact IH].
Qed.

Lemma env_get_set_other (k k' v : string) (e : list (string * string)) :
  k' <> k -> env_get k' (env_set k v e) = env_get k' e.
Proof.
  intros Hne. induction e as [|[k0 v0] e IH]; simpl.
  - destruct (String.eqb_spec k k'); [now subst | reflexivity].
  - destruct (String.eqb_spec k0 k) as [->|Hk]; simpl.
    + destruct (String.eqb_spec k k'); [now subst | reflexivity].
    + destruct (String.eqb_spec k0 k'); [reflexivity | exact IH].
Qed.

Lemma kills_snoc (tr : list effect) (e : effect) :
  kills (tr ++ [e]) = kills tr ++ kills [e].
Proof. unfold kills. apply filter_app. Qed.

(** The watchdog moves from armed to cleared or to fired and stays there. *)
Lemma on_event_phase w hs s (e : proc_event) :
  timer_phase w hs s -> timer_phase w hs (on_event w hs s e).
Proof.
  intros Hs. destruct e; simpl.
  - destruct Hs; [apply Armed | apply Cleared | apply Fired]; assumption.
  - destruct Hs; [apply Armed | apply Cleared | apply Fired]; assumption.
  - destruct Hs as [Ha Hp Hk|Ha Hk|Ha Hp Hk]; rewrite Ha.
    + apply Fired.
      * unfold on_timeout. now destruct (group_kill_throws w).
      * unfold on_timeout. destruct (group_kill_throws w); simpl; now rewrite Hp.
      * unfold on_timeout, kill_sequence.
        destruct (group_kill_throws w); simpl;
          rewrite ?kills_snoc; simpl; rewrite ?kills_snoc; simpl;
          now rewrite Hk.
    + now apply Cleared.
    + now apply Fired.
  - destruct Hs as [Ha Hp Hk|Ha Hk|Ha Hp Hk].
    + apply Cleared; simpl; [reflexivity|].
      rewrite kills_snoc. simpl. now rewrite Hk.
    + apply Cleared; simpl; [reflexivity|].
      rewrite kills_snoc. simpl. now rewrite Hk.
    + apply Fired; simpl; [reflexivity | now rewrite Hp |].
      rewrite kills_snoc. simpl. now rewrite app_nil_r.
  - destruct Hs as [Ha Hp Hk|Ha Hk|Ha Hp Hk].
    + apply Cleared; simpl; [reflexivity|].
      rewrite kills_snoc. simpl. now rewrite Hk.
    + apply Cleared; simpl; [reflexivity|].
      rewrite kills_snoc. simpl. now rewrite Hk.
    + apply Fired; simpl; [reflexivity | now rewrite Hp |].
      rewrite kills_snoc. simpl. now rewrite app_nil_r.
Qed.

Lemma event_loop_phase w hs (events : list proc_event) :
  forall s, timer_phase w hs s -> timer_phase w hs (event_loop w hs s events).
Proof.
  induction events as [|e events IH]; intros s Hs.
  - exact Hs.
  - change (event_loop w hs s (e :: events))
      with (event_loop w hs (on_event w hs s e) events).
    apply IH, on_event_phase, Hs.
Qed.

Lemma spawned_phase w args e sandbox hs :
  timer_phase w hs (spawned args e sandbox hs).
Proof. now apply Armed. Qed.

(** Callbacks signal and clear the timer, and call nothing else. *)
Lemma on_event_callbacks w hs s (e : proc_event) :
  exists extra,
    calls (on_event w hs s e) = calls s ++ extra /\
    forallb is_callback_call extra = true.
Proof.
  destruct e; simpl.
  - exists []. now rewrite app_nil_r.
  - exists []. now rewrite app_nil_r.
  - destruct (timer_armed s).
    + unfold on_timeout. destruct (group_kill_throws w); simpl.
      * eexists. rewrite <- app_assoc. split; reflexivity.
      * eexists. split; reflexivity.
    + exists []. now rewrite app_nil_r.
  - now exists [ClearTimeout].
  - now exists [ClearTimeout].
Qed.

Lemma event_loop_callbacks w hs (events : list proc_event) :
  forall s,
  exists extra,
    calls (event_loop w hs s events) = calls s ++ extra /\
    forallb is_callback_call extra = true.
Proof.
  induction events as [|e events IH]; intros s.
  - exists []. simpl. now rewrite app_nil_r.
  - destruct (on_event_callbacks w hs s e) as (x & Hx & Hcx).
    destruct (IH (on_event w hs s e)) as (y & Hy & Hcy).
    exists (x ++ y). split.
    + change (event_loop w hs s (e :: events))
        with (event_loop w hs (on_event w hs s e) events).
      rewrite Hy, Hx. now rewrite app_assoc.
    + rewrite forallb_app. now rewrite Hcx, Hcy.
Qed.

Lemma is_clear_no_kill (l : list effect) :
  forallb is_clear l = true -> kills l = [].
Proof.
  unfold kills. induction l as [|e l IH]; simpl; intros H.
  - reflexivity.
  - apply andb_prop in H as [He Hl]. destruct e; try discriminate He.
    simpl. now apply IH.
Qed.

(** The error event comes first: runAgent clears the timer and rejects with
    the error. *)
Lemma runAgent_fails w args e cid hs st pre x post :
  mkdir_error w = None ->
  fails w pre x post ->
  exists extra,
    forallb is_clear extra = true /\
    runAgent w args e cid hs st =
      (Threw x,
       {| trace := trace st ++
                   Mkdir (sandbox_of cid) true ::
                   Spawn CURSOR_BIN args (spawn_opts e (sandbox_of cid)) ::
                   SetTimeout (times_1000 hs) :: ClearTimeout :: extra;
          uuid_calls := uuid_calls st |}).
Proof.
  intros Hmk [Hev Hpre].
  rewrite (runAgent_unfold _ _ _ _ _ _ Hmk). cbn zeta.
  rewrite Hev, event_loop_app, (event_loop_output w hs pre _ Hpre).
  cbn [spawned out err timer_armed settled calls].
  change (event_loop w hs ?s (ProcError x :: post))
    with (event_loop w hs (on_event w hs s (ProcError x)) post).
  unfold on_event, clearTimeout, call, settle.
  cbn [out err timer_armed settled calls app].
  match goal with
  | |- context [event_loop w hs ?s post] =>
      destruct (event_loop_disarmed w hs post s eq_refl) as (y & Hy & Hc);
      pose proof (settled_sticky w hs post s _ eq_refl) as Hst
  end.
  cbn [calls settled] in Hy, Hst.
  exists y. split; [assumption|].
  unfold verdict. rewrite Hst, Hy. reflexivity.
Qed.

End ExtraFacts.

(** ** Further properties of the handler *)

Section Extras.

Import StringFacts LoopFacts RunFacts ExtraFacts.

Local Open Scope list_scope.

Variable parse : string -> option value.
Variable stringify : value -> string.
Variable uuid : nat -> string.

(** As [worker_accepted], without asking that the directory can be created. *)
Lemma worker_ready (w : world) (event : PubSubEvent) (msg : value)
  (key : string) (st : wstate) :
  ready parse w event msg key ->
  worker parse stringify uuid w event st =
    match runAgent w (agent_args stringify msg (effective_name msg))
            (env_set "CURSOR_API_KEY" key (process_env w))
            (correlationId_at uuid msg (uuid_calls st))
            (effective_deadline msg) (after_correlationId msg st) with
    | (Done r, st') =>
        if negb (code r =? 0)%Z
        then (Threw (Error ("cursor failed: " ++ slice (stderr r) 0 4000)%string),
              st')
        else dispatch stringify w msg (stdout r) st'
    | (Threw x, st') => (Threw x, st')
    | (Pending, st') => (Pending, st')
    end.
Proof.
  intros (Hd & Hn & Hk).
  unfold worker. unfold bind at 1. unfold lift at 1. rewrite Hd.
  unfold bind at 1. unfold lift at 1. rewrite Hk.
  unfold bind at 1. rewrite (correlationId_of_run uuid msg st Hn).
  unfold bind at 1. unfold lift at 1.
  unfold hardSeconds_of. rewrite (get_object msg _ Hn).
  unfold bind at 1. unfold lift at 1.
  unfold agent_name_of. rewrite (get_object msg _ Hn).
  unfold bind at 1.
  fold (hard_seconds_field msg). fold (effective_deadline msg).
  fold (agent_name_field msg). fold (effective_name msg).
  destruct (runAgent _ _ _ _ _ _) as [[r|x|] st']; try reflexivity.
  destruct (negb (code r =? 0)%Z); reflexivity.
Qed.

Lemma accepted_ready (w : world) (event : PubSubEvent) (msg : value)
  (key : string) :
  accepted parse w event msg key -> ready parse w event msg key.
Proof. intros (Hd & Hn & Hk & _). now repeat split. Qed.

(** The part of dispatch behind a slack.message reply with targets. *)
Lemma dispatch_slack_run (w : world) (msg : value) (body : string)
  (st : wstate) (targets : value) :
  nullish msg = false ->
  prop (prop msg "reply") "type" = VStr "slack.message" ->
  prop (prop msg "reply") "targets" = targets ->
  nullish targets = false ->
  dispatch stringify w msg body st =
    fetch w (prop targets "response_url")
      (slack_request stringify (slice body 0 39000)) st.
Proof.
  intros Hmsg Htype Htargets Hnn.
  assert (Hreply : nullish (prop msg "reply") = false).
  { destruct (prop msg "reply"); try reflexivity; discriminate Htype. }
  unfold dispatch, bind, lift, ret.
  unfold is_github, is_slack, reply_type, reply_targets.
  rewrite (get_object msg _ Hmsg).
  unfold opt_prop. rewrite Hreply, Htype. cbn -[slice].
  rewrite (get_object _ "targets" Hreply), Htargets.
  rewrite (get_object targets _ Hnn).
  reflexivity.
Qed.

(** What dispatch leaves of the state. *)
Lemma dispatch_uuid_calls (w : world) (msg : value) (body : string)
  (st : wstate) :
  uuid_calls (snd (dispatch stringify w msg body st)) = uuid_calls st.
Proof.
  destruct (dispatch_shape stringify w msg body st) as (o & tr & -> & _).
  reflexivity.
Qed.

(** X1: the handler changes nothing (no call, no UUID drawn) unless the
    envelope decodes to a message that is not null and CURSOR_API_KEY is
    set. *)
Theorem worker_acts_only_when_ready (w : world) (event : PubSubEvent)
  (st : wstate) :
  snd (worker parse stringify uuid w event st) <> st ->
  exists msg key, ready parse w event msg key.
Proof.
  unfold worker, bind, lift. intros Hne.
  destruct (decode parse event) as [msg| |] eqn:Hd;
    try (exfalso; apply Hne; reflexivity).
  destruct (api_key w) as [key| |] eqn:Hk;
    try (exfalso; apply Hne; reflexivity).
  destruct (nullish msg) eqn:Hn.
  - exfalso. apply Hne. unfold correlationId_of, bind, lift, get.
    rewrite Hn. reflexivity.
  - exists msg, key. now repeat split.
Qed.

(** X2: with CURSOR_API_KEY unset or empty, every envelope that decodes is
    refused with the error "missing CURSOR_API_KEY" before anything is done,
    whatever the message, a null one included. *)
Theorem worker_missing_key (w : world) (event : PubSubEvent) (msg : value)
  (st : wstate) :
  decode parse event = Done msg ->
  env_get "CURSOR_API_KEY" (process_env w) = None \/
  env_get "CURSOR_API_KEY" (process_env w) = Some ""%string ->
  worker parse stringify uuid w event st =
    (Threw (Error "missing CURSOR_API_KEY"), st).
Proof.
  intros Hd Hk. unfold worker, bind, lift. rewrite Hd.
  unfold api_key. destruct Hk as [-> | ->]; reflexivity.
Qed.

(** X3: decode fails with the missing-data error exactly when the data field
    is absent, at whichever level, or empty, and with a SyntaxError exactly
    when the field is there and does not parse; it returns a message exactly
    when the field is there, not empty, and parses to it.  A failure of decode
    is the failure of the handler, which then has done nothing. *)
Theorem decode_outcomes (w : world) (event : PubSubEvent) (st : wstate) :
  (decode parse event =
     Threw (Error "Malformed Pub/Sub message: missing data field") <->
   payload_of event = None \/ payload_of event = Some ""%string) /\
  (decode parse event = Threw SyntaxError <->
   exists b, payload_of event = Some b /\ b <> ""%string /\ parse b = None) /\
  (forall msg,
     decode parse event = Done msg <->
     exists b, payload_of event = Some b /\ b <> ""%string /\
               parse b = Some msg) /\
  (forall x,
     decode parse event = Threw x ->
     worker parse stringify uuid w event st = (Threw x, st)).
Proof.
  assert (Hdec : decode parse event =
                 match payload_of event with
                 | None =>
                     Threw (Error "Malformed Pub/Sub message: missing data field")
                 | Some b =>
                     if (b =? "")%string
                     then Threw (Error "Malformed Pub/Sub message: missing data field")
                     else match parse b with
                          | Some v => Done v
                          | None => Threw SyntaxError
                          end
                 end) by reflexivity.
  repeat split.
  - rewrite Hdec. destruct (payload_of event) as [b|]; [|now left].
    destruct (String.eqb_spec b "") as [Hb|Hb]; [right; now rewrite Hb|].
    destruct (parse b); discriminate.
  - rewrite Hdec. intros [-> | ->]; reflexivity.
  - rewrite Hdec. destruct (payload_of event) as [b|]; [|discriminate].
    destruct (String.eqb_spec b "") as [Hb|Hb]; [discriminate|].
    destruct (parse b) eqn:Hp; [discriminate|]. intros _. now exists b.
  - rewrite Hdec. intros (b & -> & Hb & Hp).
    destruct (String.eqb_spec b ""); [contradiction|]. now rewrite Hp.
  - rewrite Hdec. destruct (payload_of event) as [b|]; [|discriminate].
    destruct (String.eqb_spec b "") as [Hb|Hb]; [discriminate|].
    destruct (parse b) eqn:Hp; [|discriminate].
    intros H. injection H as ->. now exists b.
  - rewrite Hdec. intros (b & -> & Hb & Hp).
    destruct (String.eqb_spec b ""); [contradiction|]. now rewrite Hp.
  - intros x Hx. unfold worker, bind, lift. now rewrite Hx.
Qed.

(** X4: runAgent signals only from the watchdog and only once.  Whatever the
    process does and in whatever order the callbacks run, either no signal is
    sent at all, or the signals are those of one run of the timer callback
    (the process group, then the child if that threw) and runAgent rejects
    with the timeout error. *)
Theorem runAgent_signals_only_on_timeout (w : world) (args : list value)
  (e : list (string * string)) (cid hs : value) (st : wstate) :
  kills (trace st) = [] ->
  kills (trace (snd (runAgent w args e cid hs st))) = [] \/
  (fst (runAgent w args e cid hs st) =
     Threw (Error ("cursor-agent exceeded " ++ ToString hs ++ "s hard timeout")%string) /\
   kills (trace (snd (runAgent w args e cid hs st))) =
     ProcessKill (option_map Z.opp (proc_pid w)) SIGKILL ::
     (if group_kill_throws w then [ChildKill SIGKILL] else [])).
Proof.
  intros Hst.
  destruct (mkdir_error w) as [x|] eqn:Hmk.
  - left. rewrite (runAgent_mkdir_fails _ _ _ _ _ _ _ Hmk). cbn [snd trace].
    rewrite kills_snoc, Hst. reflexivity.
  - rewrite (runAgent_unfold _ _ _ _ _ _ Hmk). cbn zeta. cbn [fst snd trace].
    assert (Hskip : forall l,
               kills (trace st ++ Mkdir (sandbox_of cid) true :: l) = kills l).
    { intros l. unfold kills. rewrite filter_app. fold (kills (trace st)).
      now rewrite Hst. }
    rewrite Hskip.
    pose proof (event_loop_phase w hs (proc_events w) _
                  (spawned_phase w args e (sandbox_of cid) hs)) as Hphase.
    destruct Hphase as [_ _ Hk|_ Hk|_ Hp Hk].
    + left. exact Hk.
    + left. exact Hk.
    + right. unfold verdict. rewrite Hp. split; [reflexivity | exact Hk].
Qed.

(** X5: when the process closes with an exit code before the deadline,
    runAgent resolves with that very code, with the stdout chunks received
    until then, in order, as stdout and the stderr chunks as stderr.  What
    runs after the close (late data, the timer, a second close) changes
    nothing of this and sends no signal. *)
Theorem runAgent_resolves_with_exit_code (w : world) (args : list value)
  (e : list (string * string)) (cid hs : value) (st : wstate)
  (pre post : list proc_event) (n : Z) :
  mkdir_error w = None ->
  exits w pre (Some n) post ->
  fst (runAgent w args e cid hs st) =
    Done {| code := n; stdout := stdout_of pre; stderr := stderr_of pre |} /\
  kills (trace (snd (runAgent w args e cid hs st))) = kills (trace st).
Proof.
  intros Hmk Hex.
  destruct (runAgent_exits w args e cid hs st pre (Some n) post Hmk Hex)
    as (extra & Hclear & ->).
  split; [reflexivity|]. cbn [snd trace].
  unfold kills. rewrite filter_app. cbn [filter is_kill].
  fold (kills extra). rewrite (is_clear_no_kill extra Hclear).
  now rewrite app_nil_r.
Qed.

(** X6: when the child process reports an error (the binary cannot be
    started, say) before it closes and before the deadline, the handler fails
    with that error; no signal is sent and no sink is called. *)
Theorem worker_spawn_error (w : world) (event : PubSubEvent) (msg : value)
  (key : string) (n : nat) (pre post : list proc_event) (x : exn) :
  accepted parse w event msg key ->
  fails w pre x post ->
  fst (worker parse stringify uuid w event (start n)) = Threw x /\
  kills (trace (snd (worker parse stringify uuid w event (start n)))) = [] /\
  fetches (trace (snd (worker parse stringify uuid w event (start n)))) = [].
Proof.
  intros Hacc Hf.
  rewrite (worker_ready w event msg key (start n) (accepted_ready _ _ _ _ Hacc)).
  destruct Hacc as (_ & _ & _ & Hmk).
  destruct (runAgent_fails w (agent_args stringify msg (effective_name msg))
              (env_set "CURSOR_API_KEY" key (process_env w))
              (correlationId_at uuid msg (uuid_calls (start n)))
              (effective_deadline msg) (after_correlationId msg (start n))
              pre x post Hmk Hf) as (extra & Hclear & ->).
  cbn [fst snd trace after_correlationId start app].
  repeat split.
  - unfold kills. cbn [filter is_kill]. apply (is_clear_no_kill extra Hclear).
  - unfold fetches. cbn [filter is_fetch].
    apply (is_clear_not_fetch extra Hclear).
Qed.

(** X7: the agent of an accepted invocation, whose correlation_id is one a
    template literal renders, is started without a shell, as the leader of a
    new process group, with the sandbox directory as working directory and as
    HOME, with the cache and config directories under it, and with the API
    key of the handler; a HOME or XDG directory inherited from the handler's
    own environment is overridden, and every other variable is passed on as
    it is. *)
Theorem agent_environment (w : world) (event : PubSubEvent) (msg : value)
  (key : string) (n : nat) :
  accepted parse w event msg key ->
  printable (prop msg "correlation_id") = true ->
  exists args opts rest,
    trace (snd (worker parse stringify uuid w event (start n))) =
      Mkdir (sandbox_of (correlationId_at uuid msg n)) true ::
      Spawn "cursor-agent" args opts :: rest /\
    cwd opts = sandbox_of (correlationId_at uuid msg n) /\
    shell opts = false /\ detached opts = true /\
    env_get "HOME" (env opts) =
      Some (sandbox_of (correlationId_at uuid msg n)) /\
    env_get "XDG_CACHE_HOME" (env opts) =
      Some (sandbox_of (correlationId_at uuid msg n) ++ "/.cache")%string /\
    env_get "XDG_CONFIG_HOME" (env opts) =
      Some (sandbox_of (correlationId_at uuid msg n) ++ "/.config")%string /\
    env_get "CURSOR_API_KEY" (env opts) = Some key /\
    forall k,
      ~ In k ["CURSOR_API_KEY"; "HOME"; "XDG_CACHE_HOME"; "XDG_CONFIG_HOME"]%string ->
      env_get k (env opts) = env_get k (process_env w).
Proof.
  intros Hacc _.
  destruct (worker_accepted_prefix parse stringify uuid w event msg key n Hacc)
    as (rest & Hrest).
  eexists _, _, _. split; [exact Hrest|].
  cbn [spawn_opts cwd shell detached env].
  repeat split.
  - rewrite !env_get_set_other by discriminate. apply env_get_set_same.
  - rewrite !env_get_set_other by discriminate. apply env_get_set_same.
  - apply env_get_set_same.
  - rewrite !env_get_set_other by discriminate. apply env_get_set_same.
  - intros k Hk.
    rewrite !env_get_set_other; [reflexivity|..];
      intros ->; apply Hk; simpl; tauto.
Qed.

(** X8: a correlation_id of the message is used as it is when it is truthy,
    and no UUID is drawn; an empty, null, zero, false or absent one is
    replaced by a fresh UUID, one per invocation.  Either way, for an
    identifier that a template literal renders, the first call creates the
    directory of that name under /tmp. *)
Theorem worker_correlation_id (w : world) (event : PubSubEvent) (msg : value)
  (key : string) (n : nat) :
  ready parse w event msg key ->
  printable (prop msg "correlation_id") = true ->
  hd_error (trace (snd (worker parse stringify uuid w event (start n)))) =
    Some (Mkdir ("/tmp/" ++
                 ToString (if truthy (prop msg "correlation_id")
                           then prop msg "correlation_id"
                           else VStr (uuid n)))%string true) /\
  uuid_calls (snd (worker parse stringify uuid w event (start n))) =
    if truthy (prop msg "correlation_id") then n else S n.
Proof.
  intros Hready _. rewrite (worker_ready w event msg key (start n) Hready).
  cbn [start uuid_calls].
  pose proof (runAgent_uuid_calls w
                (agent_args stringify msg (effective_name msg))
                (env_set "CURSOR_API_KEY" key (process_env w))
                (correlationId_at uuid msg n) (effective_deadline msg)
                (after_correlationId msg {| trace := []; uuid_calls := n |}))
    as Hu.
  assert (Hhd : exists rest,
             trace (snd (runAgent w
                (agent_args stringify msg (effective_name msg))
                (env_set "CURSOR_API_KEY" key (process_env w))
                (correlationId_at uuid msg n) (effective_deadline msg)
                (after_correlationId msg {| trace := []; uuid_calls := n |}))) =
             Mkdir (sandbox_of (correlationId_at uuid msg n)) true :: rest).
  { destruct (mkdir_error w) as [x|] eqn:Hmk.
    - rewrite (runAgent_mkdir_fails _ _ _ _ _ _ _ Hmk). now exists [].
    - destruct (runAgent_prefix w
                  (agent_args stringify msg (effective_name msg))
                  (env_set "CURSOR_API_KEY" key (process_env w))
                  (correlationId_at uuid msg n) (effective_deadline msg)
                  (after_correlationId msg {| trace := []; uuid_calls := n |})
                  Hmk) as (rest & ->).
      eexists. reflexivity. }
  destruct Hhd as (rest & Hrest).
  cbn [after_correlationId uuid_calls trace] in Hu.
  fold (correlationId_at uuid msg n). fold (sandbox_of (correlationId_at uuid msg n)).
  destruct (runAgent _ _ _ _ _ _) as [[r|x|] st']; cbn [snd] in *;
    try (rewrite Hrest, Hu; split; reflexivity).
  destruct (negb (code r =? 0)%Z); cbn [snd].
  - rewrite Hrest, Hu. split; reflexivity.
  - rewrite dispatch_uuid_calls, Hu.
    destruct (dispatch_grows stringify w msg (stdout r) st') as (tr & ->).
    rewrite Hrest. split; reflexivity.
Qed.

(** X9: when the deadline expires on an accepted invocation, the handler
    fails with the timeout error, which names the deadline it worked with
    (900 when the message gives none), for a hard_seconds that a template
    literal renders; the output received so far is dropped and no sink is
    called. *)
Theorem worker_timeout (w : world) (event : PubSubEvent) (msg : value)
  (key : string) (n : nat) (pre post : list proc_event) :
  accepted parse w event msg key ->
  expires w pre post ->
  printable (hard_seconds_field msg) = true ->
  fst (worker parse stringify uuid w event (start n)) =
    Threw (Error ("cursor-agent exceeded " ++
                  ToString (if nullish (hard_seconds_field msg)
                            then VNum 900 else hard_seconds_field msg)
                  ++ "s hard timeout")%string) /\
  fetches (trace (snd (worker parse stringify uuid w event (start n)))) = [].
Proof.
  intros Hacc Hexp _.
  rewrite (worker_ready w event msg key (start n) (accepted_ready _ _ _ _ Hacc)).
  destruct Hacc as (_ & _ & _ & Hmk).
  pose proof (runAgent_fetches w
                (agent_args stringify msg (effective_name msg))
                (env_set "CURSOR_API_KEY" key (process_env w))
                (correlationId_at uuid msg (uuid_calls (start n)))
                (effective_deadline msg) (after_correlationId msg (start n)))
    as Hf.
  destruct (runAgent_expires w (agent_args stringify msg (effective_name msg))
              (env_set "CURSOR_API_KEY" key (process_env w))
              (correlationId_at uuid msg (uuid_calls (start n)))
              (effective_deadline msg) (after_correlationId msg (start n))
              pre post Hmk Hexp) as (extra & _ & Hrun).
  rewrite Hrun in *. cbn [fst snd]. split; [reflexivity | exact Hf].
Qed.

(** X10: when the sandbox directory cannot be created, the handler fails with
    the error of mkdirSync and has done nothing else: no process is spawned,
    no timer armed, no sink called. *)
Theorem worker_mkdir_fails (w : world) (event : PubSubEvent) (msg : value)
  (key : string) (n : nat) (x : exn) :
  ready parse w event msg key ->
  mkdir_error w = Some x ->
  fst (worker parse stringify uuid w event (start n)) = Threw x /\
  trace (snd (worker parse stringify uuid w event (start n))) =
    [Mkdir (sandbox_of (correlationId_at uuid msg n)) true].
Proof.
  intros Hready Hmk.
  rewrite (worker_ready w event msg key (start n) Hready).
  rewrite (runAgent_mkdir_fails _ _ _ _ _ _ _ Hmk).
  split; reflexivity.
Qed.

(** X11: after a run with exit code 0, a message without reply, without
    reply type, or with a type that neither starts with "github." nor is
    exactly "slack.message" makes the handler complete without calling any
    sink. *)
Theorem worker_no_sink_for_other_types (w : world) (event : PubSubEvent)
  (msg : value) (key : string) (n : nat) (pre post : list proc_event) :
  accepted parse w event msg key ->
  exits w pre (Some 0%Z) post ->
  (nullish (opt_prop (prop msg "reply") "type") = true \/
   exists kind,
     opt_prop (prop msg "reply") "type" = VStr kind /\
     startsWith kind "github." = false /\ kind <> "slack.message"%string) ->
  fst (worker parse stringify uuid w event (start n)) = Done tt /\
  fetches (trace (snd (worker parse stringify uuid w event (start n)))) = [].
Proof.
  intros Hacc Hex Htype.
  destruct (worker_exits parse stringify uuid w event msg key n pre
              (Some 0%Z) post Hacc Hex) as (st' & Hst' & ->).
  cbn [exit_code_or_1 Z.eqb negb].
  destruct Hacc as (_ & Hmsg & _ & _).
  assert (Hrun : dispatch stringify w msg (stdout_of pre) st' = (Done tt, st')).
  { unfold dispatch, bind, lift, ret.
    unfold is_github, is_slack, reply_type.
    rewrite (get_object msg _ Hmsg).
    destruct Htype as [Hnull | (kind & -> & Hg & Hs)].
    - rewrite Hnull.
      destruct (opt_prop (prop msg "reply") "type"); try discriminate Hnull;
        reflexivity.
    - cbn [nullish]. rewrite Hg.
      destruct (String.eqb_spec kind "slack.message"); [contradiction|].
      reflexivity. }
  rewrite Hrun. split; [reflexivity | exact Hst'].
Qed.

(** X12: after a run with exit code 0, a reply type that is there and is not
    a string (a number, a boolean, an array, an object) makes the handler
    fail with a TypeError, the value having no startsWith method; no sink is
    called. *)
Theorem worker_reply_type_not_a_string (w : world) (event : PubSubEvent)
  (msg : value) (key : string) (n : nat) (pre post : list proc_event) :
  accepted parse w event msg key ->
  exits w pre (Some 0%Z) post ->
  nullish (opt_prop (prop msg "reply") "type") = false ->
  (forall kind, opt_prop (prop msg "reply") "type" <> VStr kind) ->
  (exists what,
     fst (worker parse stringify uuid w event (start n)) =
       Threw (TypeError what)) /\
  fetches (trace (snd (worker parse stringify uuid w event (start n)))) = [].
Proof.
  intros Hacc Hex Hnn Hns.
  destruct (worker_exits parse stringify uuid w event msg key n pre
              (Some 0%Z) post Hacc Hex) as (st' & Hst' & ->).
  cbn [exit_code_or_1 Z.eqb negb].
  destruct Hacc as (_ & Hmsg & _ & _).
  assert (Hrun : exists what,
             dispatch stringify w msg (stdout_of pre) st' =
               (Threw (TypeError what), st')).
  { unfold dispatch, bind, lift, ret.
    unfold is_github, reply_type.
    rewrite (get_object msg _ Hmsg). rewrite Hnn.
    destruct (opt_prop (prop msg "reply") "type") as [| | | |kind| |] eqn:Ht;
      try (eexists; reflexivity).
    now destruct (Hns kind). }
  destruct Hrun as (what & ->). split; [now exists what | exact Hst'].
Qed.

(** X13: after a run with exit code 0, a GitHub or Slack reply without a
    targets object makes the handler fail with a TypeError before any sink is
    called: the result of the run is posted nowhere. *)
Theorem worker_reply_without_targets (w : world) (event : PubSubEvent)
  (msg : value) (key : string) (n : nat) (pre post : list proc_event)
  (kind : string) :
  accepted parse w event msg key ->
  exits w pre (Some 0%Z) post ->
  prop (prop msg "reply") "type" = VStr kind ->
  startsWith kind "github." = true \/ kind = "slack.message"%string ->
  nullish (prop (prop msg "reply") "targets") = true ->
  (exists what,
     fst (worker parse stringify uuid w event (start n)) =
       Threw (TypeError what)) /\
  fetches (trace (snd (worker parse stringify uuid w event (start n)))) = [].
Proof.
  intros Hacc Hex Htype Hkind Hnull.
  destruct (worker_exits parse stringify uuid w event msg key n pre
              (Some 0%Z) post Hacc Hex) as (st' & Hst' & ->).
  cbn [exit_code_or_1 Z.eqb negb].
  destruct Hacc as (_ & Hmsg & _ & _).
  assert (Hreply : nullish (prop msg "reply") = false).
  { destruct (prop msg "reply"); try reflexivity; discriminate Htype. }
  assert (Hrun : exists what,
             dispatch stringify w msg (stdout_of pre) st' =
               (Threw (TypeError what), st')).
  { unfold dispatch, bind, lift, ret.
    unfold is_github, is_slack, reply_type, reply_targets.
    rewrite (get_object msg _ Hmsg).
    unfold opt_prop. rewrite Hreply, Htype. cbn [nullish].
    rewrite (get_object _ "targets" Hreply).
    destruct Hkind as [Hg | ->].
    - rewrite Hg. unfold postGitHub, bind, lift, get. rewrite Hnull.
      eexists. reflexivity.
    - cbn -[get]. unfold get. rewrite Hnull. eexists. reflexivity. }
  destruct Hrun as (what & ->). split; [now exists what | exact Hst'].
Qed.

(** The calls of runAgent, started with an empty trace. *)
Lemma runAgent_shape (w : world) (args : list value)
  (e : list (string * string)) (cid hs : value) (st : wstate) :
  trace st = [] ->
  (exists p,
     trace (snd (runAgent w args e cid hs st)) = [Mkdir p true] /\
     forall r, fst (runAgent w args e cid hs st) <> Done r) \/
  (exists p opts d loop,
     trace (snd (runAgent w args e cid hs st)) =
       Mkdir p true :: Spawn CURSOR_BIN args opts :: SetTimeout d :: loop /\
     forallb is_callback_call loop = true /\
     (kills loop = [] \/ kills loop = kill_sequence w)).
Proof.
  intros Hst.
  destruct (mkdir_error w) as [x|] eqn:Hmk.
  - left. rewrite (runAgent_mkdir_fails _ _ _ _ _ _ _ Hmk). cbn [fst snd trace].
    rewrite Hst. eexists. split; [reflexivity | discriminate].
  - right. rewrite (runAgent_unfold _ _ _ _ _ _ Hmk). cbn zeta. cbn [snd trace].
    rewrite Hst. cbn [app].
    destruct (event_loop_callbacks w hs (proc_events w)
                (spawned args e (sandbox_of cid) hs)) as (loop & Hloop & Hcb).
    pose proof (event_loop_phase w hs (proc_events w) _
                  (spawned_phase w args e (sandbox_of cid) hs)) as Hphase.
    rewrite Hloop in *. cbn [spawned calls app] in *.
    eexists _, _, _, loop. split; [reflexivity|]. split; [exact Hcb|].
    destruct Hphase as [_ _ Hk|_ Hk|_ _ Hk]; rewrite Hloop in Hk;
      [now left | now left | now right].
Qed.

(** X14: every invocation whose deadline is a value that [* 1000] converts
    makes its calls in one order: the sandbox directory first; then, if that
    was created, one spawn and one timer; then what the callbacks call, which
    is clearTimeout and, at most once, the signals of the watchdog; and last
    at most one sink call.  Nothing is spawned, signalled or posted twice. *)
Theorem worker_trace_shape (w : world) (event : PubSubEvent) (n : nat) :
  (forall msg,
     decode parse event = Done msg ->
     conversion_throws
       (if nullish (hard_seconds_field msg)
        then VNum 900 else hard_seconds_field msg) = false) ->
  trace (snd (worker parse stringify uuid w event (start n))) = [] \/
  (exists p,
     trace (snd (worker parse stringify uuid w event (start n))) =
       [Mkdir p true]) \/
  exists p args opts d loop tail,
    trace (snd (worker parse stringify uuid w event (start n))) =
      Mkdir p true :: Spawn "cursor-agent" args opts :: SetTimeout d ::
      loop ++ tail /\
    forallb is_callback_call loop = true /\
    (kills loop = [] \/
     kills loop =
       ProcessKill (option_map Z.opp (proc_pid w)) SIGKILL ::
       (if group_kill_throws w then [ChildKill SIGKILL] else [])) /\
    (tail = [] \/ exists u r, tail = [Fetch u r]).
Proof.
  intros _.
  assert (Hgo : forall msg st args e cid hs,
             trace st = [] ->
             let res :=
               match runAgent w args e cid hs st with
               | (Done r, st') =>
                   if negb (code r =? 0)%Z
                   then (Threw (Error ("cursor failed: " ++
                                       slice (stderr r) 0 4000)%string), st')
                   else dispatch stringify w msg (stdout r) st'
               | (Threw x, st') => (Threw x, st')
               | (Pending, st') => (Pending, st')
               end in
             trace (snd res) = [] \/
             (exists p, trace (snd res) = [Mkdir p true]) \/
             exists p args' opts d loop tail,
               trace (snd res) =
                 Mkdir p true :: Spawn "cursor-agent" args' opts ::
                 SetTimeout d :: loop ++ tail /\
               forallb is_callback_call loop = true /\
               (kills loop = [] \/ kills loop = kill_sequence w) /\
               (tail = [] \/ exists u r, tail = [Fetch u r])).
  { intros msg st args e cid hs Hst res. subst res.
    destruct (runAgent_shape w args e cid hs st Hst)
      as [(p & Htr & Hnot) | (p & opts & d & loop & Htr & Hcb & Hk)].
    - right. left. exists p.
      destruct (runAgent w args e cid hs st) as [[r|x|] st']; cbn [fst snd] in *;
        try exact Htr.
      now destruct (Hnot r).
    - right. right.
      destruct (runAgent w args e cid hs st) as [[r|x|] st']; cbn [snd] in *;
        try (exists p, args, opts, d, loop, []; rewrite app_nil_r;
             repeat split; try assumption; now left).
      destruct (negb (code r =? 0)%Z); cbn [snd].
      + exists p, args, opts, d, loop, []. rewrite app_nil_r.
        repeat split; try assumption. now left.
      + destruct (dispatch_shape stringify w msg (stdout r) st')
          as (o & tr & -> & Htail).
        cbn [snd trace]. rewrite Htr.
        exists p, args, opts, d, loop, tr.
        repeat split; try assumption.
        destruct Htail as [->|(u & r0 & -> & _)]; [now left | right; eauto]. }
  destruct (decode parse event) as [msg| |] eqn:Hd;
    try (left; unfold worker, bind, lift; now rewrite Hd).
  destruct (api_key w) as [key| |] eqn:Hk;
    try (left; unfold worker, bind, lift; now rewrite Hd, Hk).
  destruct (nullish msg) eqn:Hn.
  - left. unfold worker, bind, lift. rewrite Hd, Hk.
    unfold correlationId_of, bind, lift, get. now rewrite Hn.
  - rewrite (worker_ready w event msg key (start n)
               (conj Hd (conj Hn Hk))).
    apply (Hgo msg). reflexivity.
Qed.

(** X15: a stdout of at most 39000 characters reaches the Slack response URL
    whole: the text posted is stdout itself. *)
Theorem worker_short_text_is_sent_whole (w : world) (event : PubSubEvent)
  (msg : value) (key : string) (n : nat) (pre post : list proc_event)
  (targets : value) :
  accepted parse w event msg key ->
  exits w pre (Some 0%Z) post ->
  prop (prop msg "reply") "type" = VStr "slack.message" ->
  prop (prop msg "reply") "targets" = targets ->
  nullish targets = false ->
  (strlen (stdout_of pre) <= 39000)%N ->
  exists before,
    trace (snd (worker parse stringify uuid w event (start n))) =
      before ++
      [Fetch (prop targets "response_url")
         {| req_method := "POST";
            req_headers := [("Content-Type", "application/json")]%string;
            req_body := stringify (VObj [("text", VStr (stdout_of pre))]) |}].
Proof.
  intros Hacc Hex Htype Htargets Hnn Hlen.
  destruct (worker_exits parse stringify uuid w event msg key n pre
              (Some 0%Z) post Hacc Hex) as (st' & Hst' & ->).
  cbn [exit_code_or_1 Z.eqb negb].
  destruct Hacc as (_ & Hmsg & _ & _).
  rewrite (dispatch_slack_run w msg (stdout_of pre) st' targets
             Hmsg Htype Htargets Hnn).
  rewrite fetch_run. cbn [snd trace].
  rewrite slice_0 by lia. rewrite take_all by exact Hlen.
  exists (trace st'). reflexivity.
Qed.

(** X16: a stderr of at most 4000 characters appears whole in the error the
    handler raises for a non-zero exit code. *)
Theorem worker_short_stderr_is_shown_whole (w : world) (event : PubSubEvent)
  (msg : value) (key : string) (n : nat) (pre post : list proc_event)
  (c : option Z) :
  accepted parse w event msg key ->
  exits w pre c post ->
  exit_code_or_1 c <> 0%Z ->
  (strlen (stderr_of pre) <= 4000)%N ->
  fst (worker parse stringify uuid w event (start n)) =
    Threw (Error ("cursor failed: " ++ stderr_of pre)%string).
Proof.
  intros Hacc Hex Hc Hlen.
  destruct (worker_exits parse stringify uuid w event msg key n pre c post
              Hacc Hex) as (st' & _ & ->).
  destruct (Z.eqb_spec (exit_code_or_1 c) 0) as [H0|_]; [contradiction|].
  cbn [negb fst].
  rewrite slice_0 by lia. now rewrite take_all by exact Hlen.
Qed.

End Extras.

(** ** Properties of the router *)

Section RouterProperties.

Import Router.

Local Open Scope list_scope.

Variable JSON_parse : string -> option value.
Variable JSON_stringify : value -> string.
Variable randomUUID : nat -> string.
Variable Number_of : string -> option Z.
Variable hmac_sha256_hex : string -> string -> string.
Variable utf8_length : string -> N.

(** X17: verifySlack accepts a request exactly when its timestamp is not more
    than 300 seconds from the clock (or is no number at all) and its signature
    header is "v0=" followed by the MAC, under the signing secret, of
    "v0:<timestamp>:<body>". *)
Theorem verifySlack_accepts_exactly (w : setting) (req : http_request) :
  verifySlack JSON_stringify Number_of hmac_sha256_hex utf8_length w req =
    Ok true <->
  stale (now_ms w)
    (match header "x-slack-request-timestamp" req with
     | Some t => Number_of t
     | None => None
     end) = false /\
  exists secret,
    signing_secret w = Some secret /\
    header "x-slack-signature" req =
      Some ("v0=" ++ hmac_sha256_hex secret (base_string JSON_stringify req))%string.
Proof.
  unfold verifySlack. split.
  - destruct (stale _ _); [discriminate|].
    destruct (signing_secret w) as [secret|]; [|discriminate].
    destruct (header "x-slack-signature" req) as [s|]; [|discriminate].
    destruct (N.eqb _ _); [|discriminate].
    destruct (String.eqb_spec
                ("v0=" ++ hmac_sha256_hex secret (base_string JSON_stringify req))
                s) as [Heq|_]; [|discriminate].
    intros _. split; [reflexivity|]. exists secret. now rewrite Heq.
  - intros (-> & secret & -> & ->).
    now rewrite N.eqb_refl, String.eqb_refl.
Qed.

(** X18: a Slack request whose timestamp is more than 300 seconds from the
    clock is answered 401 "bad sig" and nothing is published, whatever its
    signature, a valid one included. *)
Theorem router_rejects_stale (w : setting) (req : http_request) (st : state)
  (t : string) (s : Z) :
  from_slack req = true ->
  header "x-slack-request-timestamp" req = Some t ->
  Number_of t = Some s ->
  (300000 < Z.abs (now_ms w - 1000 * s))%Z ->
  router JSON_parse JSON_stringify randomUUID Number_of hmac_sha256_hex
    utf8_length w req st =
    (Ok tt, {| log := log st ++ [Respond 401 (VStr "bad sig")];
               uuids_drawn := uuids_drawn st |}).
Proof.
  intros Hs Ht Hn Hfar. unfold router, verifySlack. rewrite Hs, Ht, Hn.
  unfold stale.
  destruct (Z.ltb_spec (60 * 5 * 1000) (Z.abs (now_ms w - 1000 * s)));
    [reflexivity | lia].
Qed.

(** X19: a Slack request that is not stale and whose signature has another
    length than the computed one makes the handler fail with the RangeError
    of timingSafeEqual: no 401 is sent and nothing is published. *)
Theorem router_signature_of_other_length (w : setting) (req : http_request)
  (st : state) (secret s : string) :
  from_slack req = true ->
  stale (now_ms w)
    (match header "x-slack-request-timestamp" req with
     | Some t => Number_of t
     | None => None
     end) = false ->
  signing_secret w = Some secret ->
  header "x-slack-signature" req = Some s ->
  utf8_length s <>
    utf8_length ("v0=" ++ hmac_sha256_hex secret (base_string JSON_stringify req))%string ->
  router JSON_parse JSON_stringify randomUUID Number_of hmac_sha256_hex
    utf8_length w req st = (Fails RangeErr, st).
Proof.
  intros Hs Hfresh Hsec Hsig Hlen. unfold router, verifySlack.
  rewrite Hs, Hfresh, Hsec, Hsig.
  destruct (N.eqb_spec
              (utf8_length ("v0=" ++ hmac_sha256_hex secret
                                       (base_string JSON_stringify req))%string)
              (utf8_length s)) as [Heq|_].
  - now destruct Hlen.
  - reflexivity.
Qed.

(** X20: the router publishes for a Slack request only if verifySlack
    accepted it. *)
Theorem router_publishes_only_verified (w : setting) (req : http_request)
  (n : nat) (topic : string) (msg : value) :
  In (Publish topic msg)
    (log (snd (router JSON_parse JSON_stringify randomUUID Number_of
                 hmac_sha256_hex utf8_length w req (fresh n)))) ->
  from_slack req = false \/
  verifySlack JSON_stringify Number_of hmac_sha256_hex utf8_length w req =
    Ok true.
Proof.
  unfold router.
  destruct (from_slack req); [|now left].
  destruct (verifySlack _ _ _ _ w req) as [[|]|f]; cbn [snd log fresh record app].
  - now right.
  - intros [H|[]]. discriminate H.
  - intros [].
Qed.

(** X21: what the router sends, in order, is one of: nothing (the handler
    failed before publishing); the 401 alone; one message alone (publishing
    failed, no response); or one message followed by the 202, whose id is the
    correlation_id of the message. *)
Theorem router_log_shape (w : setting) (req : http_request) (n : nat) :
  let done :=
    router JSON_parse JSON_stringify randomUUID Number_of hmac_sha256_hex
      utf8_length w req (fresh n) in
  (log (snd done) = [] /\ exists f, fst done = Fails f) \/
  (log (snd done) = [Respond 401 (VStr "bad sig")] /\ fst done = Ok tt) \/
  (exists msg f,
     log (snd done) = [Publish (pubsub_topic w) msg] /\ fst done = Fails f) \/
  (exists msg,
     log (snd done) =
       [Publish (pubsub_topic w) msg;
        Respond 202 (VObj [("ok", VBool true);
                           ("id", prop msg "correlation_id")])] /\
     fst done = Ok tt).
Proof.
  cbv zeta. unfold router.
  destruct (if from_slack req then verifySlack _ _ _ _ w req else Ok true)
    as [[|]|f]; cbn [fst snd log fresh record app].
  - destruct (payload_of_body JSON_parse req) as [p|f];
      [|left; split; [reflexivity | now exists f]].
    destruct (nullish p); [left; split; [reflexivity | eexists; reflexivity]|].
    destruct (publish_error w) as [f|]; cbn [fst snd log fresh record app].
    + right. right. left. eexists _, f. split; reflexivity.
    + right. right. right.
      exists (build_message p
                (if truthy (prop p "correlation_id")
                 then prop p "correlation_id"
                 else VStr (randomUUID (uuids_drawn (fresh n))))).
      split; reflexivity.
  - right. left. split; reflexivity.
  - left. split; [reflexivity | now exists f].
Qed.

(** X22: a request whose user-agent is absent or does not contain "Slackbot"
    is never verified: whatever the secret, the clock and the signature
    headers, its payload is published, under the correlation_id it carries or
    a fresh UUID, and answered 202. *)
Theorem router_publishes_unsigned_clients (w : setting) (req : http_request)
  (n : nat) (payload : value) :
  from_slack req = false ->
  payload_of_body JSON_parse req = Ok payload ->
  nullish payload = false ->
  publish_error w = None ->
  let id :=
    if truthy (prop payload "correlation_id")
    then prop payload "correlation_id" else VStr (randomUUID n) in
  router JSON_parse JSON_stringify randomUUID Number_of hmac_sha256_hex
    utf8_length w req (fresh n) =
    (Ok tt,
     {| log := [Publish (pubsub_topic w) (build_message payload id);
                Respond 202 (VObj [("ok", VBool true); ("id", id)])];
        uuids_drawn := if truthy (prop payload "correlation_id")
                       then n else S n |}).
Proof.
  intros Hs Hp Hn Hpub id. unfold router. rewrite Hs, Hp, Hn, Hpub.
  reflexivity.
Qed.

(** A falsy value has no properties to read. *)
Lemma falsy_opt_prop (v : value) (k : string) :
  truthy v = false -> opt_prop v k = VUndefined.
Proof. destruct v; simpl; try discriminate; reflexivity. Qed.

Lemma or_else_opt_prop (v d : value) (k : string) :
  opt_prop d k = VUndefined -> opt_prop (or_else v d) k = opt_prop v k.
Proof.
  intros Hd. unfold or_else. destruct (truthy v) eqn:Hv; [reflexivity|].
  now rewrite Hd, (falsy_opt_prop v k Hv).
Qed.

(** X23: routing changes nothing of what the worker makes of a payload: for
    the message built from a payload, the deadline and the agent name the
    worker works with, and the whole of its dispatch, are those of the payload
    itself.  The defaults of the router (an empty reply, a deadline of 900)
    agree with those of the worker. *)
Theorem routed_message_keeps_behaviour (payload id : value) :
  nullish payload = false ->
  effective_deadline (build_message payload id) = effective_deadline payload /\
  effective_name (build_message payload id) = effective_name payload /\
  forall (stringify : value -> string) (w : world) (out : string)
         (st : wstate),
    dispatch stringify w (build_message payload id) out st =
    dispatch stringify w payload out st.
Proof.
  intros Hp.
  assert (Htype : reply_type (build_message payload id) = reply_type payload).
  { unfold reply_type, get. rewrite Hp.
    change (nullish (build_message payload id)) with false. cbv iota.
    change (prop (build_message payload id) "reply")
      with (or_else (prop payload "reply") (VObj [])).
    now rewrite or_else_opt_prop. }
  repeat split.
  - unfold effective_deadline, hard_seconds_field.
    change (prop (build_message payload id) "timeouts")
      with (or_else (prop payload "timeouts") (VObj [("hard_seconds", VNum 900)])).
    unfold or_else. destruct (truthy (prop payload "timeouts")) eqn:Ht;
      [reflexivity|].
    now rewrite (falsy_opt_prop _ "hard_seconds" Ht).
  - intros stringify w out st.
    assert (Hg : is_github (build_message payload id) = is_github payload)
      by (unfold is_github; now rewrite Htype).
    assert (Hs : is_slack (build_message payload id) = is_slack payload)
      by (unfold is_slack; now rewrite Htype).
    unfold dispatch, bind, lift. rewrite Hg, Hs.
    destruct (truthy (prop payload "reply")) eqn:Hr.
    + assert (Ht : reply_targets (build_message payload id) =
                   reply_targets payload).
      { unfold reply_targets, get. rewrite Hp.
        change (nullish (build_message payload id)) with false. cbv iota.
        change (prop (build_message payload id) "reply")
          with (or_else (prop payload "reply") (VObj [])).
        unfold or_else. now rewrite Hr. }
      now rewrite Ht.
    + assert (Hnone : reply_type payload = Done VUndefined).
      { unfold reply_type, get. rewrite Hp.
        now rewrite (falsy_opt_prop _ "type" Hr). }
      unfold is_github, is_slack. rewrite Hnone. reflexivity.
Qed.

(** X24: the id of a 202 response is the correlation_id of the message
    published with it, and line 103 of the worker, given that message, takes
    that very id and draws none of its own, given that crypto.randomUUID does
    not return the empty string. *)
Theorem routed_correlation_id (w : setting) (req : http_request) (n : nat)
  (content : value) :
  (forall k, randomUUID k <> ""%string) ->
  In (Respond 202 content)
    (log (snd (router JSON_parse JSON_stringify randomUUID Number_of
                 hmac_sha256_hex utf8_length w req (fresh n)))) ->
  exists msg,
    In (Publish (pubsub_topic w) msg)
      (log (snd (router JSON_parse JSON_stringify randomUUID Number_of
                   hmac_sha256_hex utf8_length w req (fresh n)))) /\
    content = VObj [("ok", VBool true); ("id", prop msg "correlation_id")] /\
    forall (uuid : nat -> string) (st : wstate),
      correlationId_of uuid msg st = (Done (prop msg "correlation_id"), st).
Proof.
  intros Hne. unfold router.
  destruct (if from_slack req then verifySlack _ _ _ _ w req else Ok true)
    as [[|]|f]; cbn [snd log fresh record app].
  - destruct (payload_of_body JSON_parse req) as [p|f]; [|intros []].
    destruct (nullish p); [intros []|].
    destruct (publish_error w) as [f|]; cbn [snd log fresh record app].
    + intros [H|[]]. discriminate H.
    + intros [H|[H|[]]]; [discriminate H|]. injection H as <-.
      set (id := if truthy (prop p "correlation_id")
                 then prop p "correlation_id"
                 else VStr (randomUUID (uuids_drawn (fresh n)))).
      assert (Htruthy : truthy id = true).
      { unfold id. destruct (truthy (prop p "correlation_id")) eqn:Hg;
          [exact Hg|].
        cbn [truthy].
        destruct (String.eqb_spec (randomUUID (uuids_drawn (fresh n))) "");
          [now destruct (Hne (uuids_drawn (fresh n))) | reflexivity]. }
      assert (Hid : prop (build_message p id) "correlation_id" = id)
        by reflexivity.
      exists (build_message p id).
      split; [left; reflexivity|]. split; [now rewrite Hid|].
      intros uuid st.
      unfold correlationId_of, bind, lift, get, ret.
      change (nullish (build_message p id)) with false. cbv iota.
      now rewrite Hid, Htruthy.
  - intros [H|[]]. discriminate H.
  - intros [].
Qed.

End RouterProperties.

(** ** The further properties at sample inputs *)

Module ExtraInstances.

Import StringFacts.

Local Open Scope list_scope.

Lemma worker_acts_only_when_ready_witness :
  exists msg key,
    ready Sample.parse Sample.world_ok (Sample.event_of Sample.b64_plain)
      msg key.
Proof.
  apply (worker_acts_only_when_ready Sample.parse Sample.stringify Sample.uuid
           Sample.world_ok (Sample.event_of Sample.b64_plain) (start 0)).
  vm_compute. discriminate.
Defined.

Lemma worker_missing_key_witness :
  env_get "CURSOR_API_KEY" (process_env More.world_no_key) = None /\
  worker Sample.parse Sample.stringify Sample.uuid More.world_no_key
    (Sample.event_of Sample.b64_plain) (start 0) =
    (Threw (Error "missing CURSOR_API_KEY"), start 0).
Proof.
  split; [reflexivity|].
  apply (worker_missing_key Sample.parse Sample.stringify Sample.uuid
           More.world_no_key (Sample.event_of Sample.b64_plain)
           Sample.msg_plain (start 0)).
  - reflexivity.
  - left. reflexivity.
Defined.

Lemma runAgent_signals_only_on_timeout_witness :
  kills (trace (snd (runAgent More.world_group_kill_fails
                       [VStr "--name"; VStr "x"] [] (VStr "task-1") (VNum 1)
                       (start 0)))) = [] \/
  (fst (runAgent More.world_group_kill_fails [VStr "--name"; VStr "x"] []
          (VStr "task-1") (VNum 1) (start 0)) =
     Threw (Error "cursor-agent exceeded 1s hard timeout") /\
   kills (trace (snd (runAgent More.world_group_kill_fails
                        [VStr "--name"; VStr "x"] [] (VStr "task-1") (VNum 1)
                        (start 0)))) =
     [ProcessKill (Some (-4242)%Z) SIGKILL; ChildKill SIGKILL]).
Proof.
  apply (runAgent_signals_only_on_timeout More.world_group_kill_fails
           [VStr "--name"; VStr "x"] [] (VStr "task-1") (VNum 1) (start 0)).
  reflexivity.
Defined.

Lemma runAgent_resolves_with_exit_code_witness :
  exits More.world_late_events
    [StdoutData "a"; StderrData "warn"; StdoutData "b"] (Some 3%Z)
    [TimerFired; StdoutData "late"] /\
  fst (runAgent More.world_late_events [VStr "--name"; VStr "x"] []
         (VStr "task-1") (VNum 900) (start 0)) =
    Done {| code := 3; stdout := "ab"; stderr := "warn" |} /\
  kills (trace (snd (runAgent More.world_late_events
                       [VStr "--name"; VStr "x"] [] (VStr "task-1")
                       (VNum 900) (start 0)))) = [].
Proof.
  assert (Hex : exits More.world_late_events
                  [StdoutData "a"; StderrData "warn"; StdoutData "b"]
                  (Some 3%Z) [TimerFired; StdoutData "late"])
    by (split; reflexivity).
  split; [exact Hex|].
  exact (runAgent_resolves_with_exit_code More.world_late_events
           [VStr "--name"; VStr "x"] [] (VStr "task-1") (VNum 900) (start 0)
           [StdoutData "a"; StderrData "warn"; StdoutData "b"]
           [TimerFired; StdoutData "late"] 3%Z eq_refl Hex).
Defined.

Lemma worker_spawn_error_witness :
  fails More.world_spawn_error [] (SystemError "ENOENT") [TimerFired] /\
  fst (worker Sample.parse Sample.stringify Sample.uuid More.world_spawn_error
         (Sample.event_of Sample.b64_plain) (start 0)) =
    Threw (SystemError "ENOENT").
Proof.
  assert (Hf : fails More.world_spawn_error [] (SystemError "ENOENT")
                 [TimerFired]) by (split; reflexivity).
  split; [exact Hf|].
  apply (worker_spawn_error Sample.parse Sample.stringify Sample.uuid
           More.world_spawn_error (Sample.event_of Sample.b64_plain)
           Sample.msg_plain "key-1" 0 [] [TimerFired] (SystemError "ENOENT")).
  - repeat split.
  - exact Hf.
Defined.

Lemma agent_environment_witness :
  env_get "HOME" (process_env More.world_with_home) = Some "/root"%string /\
  exists args opts rest,
    trace (snd (worker More.parse Sample.stringify Sample.uuid
                  More.world_with_home (Sample.event_of More.b64_with_id)
                  (start 0))) =
      Mkdir "/tmp/task-42" true :: Spawn "cursor-agent" args opts :: rest /\
    env_get "HOME" (env opts) = Some "/tmp/task-42"%string /\
    env_get "LANG" (env opts) = Some "C"%string.
Proof.
  split; [reflexivity|].
  destruct (agent_environment More.parse Sample.stringify Sample.uuid
              More.world_with_home (Sample.event_of More.b64_with_id)
              More.msg_with_id "key-1" 0)
    as (args & opts & rest & Htr & _ & _ & _ & Hhome & _ & _ & _ & Hother).
  - repeat split.
  - reflexivity.
  - exists args, opts, rest. split; [exact Htr|]. split; [exact Hhome|].
    rewrite (Hother "LANG"%string); [reflexivity|].
    simpl. intros [H|[H|[H|[H|[]]]]]; discriminate H.
Defined.

Lemma worker_correlation_id_witness :
  truthy (prop More.msg_blank_id "correlation_id") = false /\
  hd_error (trace (snd (worker More.parse Sample.stringify Sample.uuid
                          Sample.world_ok (Sample.event_of More.b64_blank_id)
                          (start 0)))) =
    Some (Mkdir "/tmp/uuid-0" true) /\
  uuid_calls (snd (worker More.parse Sample.stringify Sample.uuid
                     Sample.world_ok (Sample.event_of More.b64_blank_id)
                     (start 0))) = 1.
Proof.
  split; [reflexivity|].
  apply (worker_correlation_id More.parse Sample.stringify Sample.uuid
           Sample.world_ok (Sample.event_of More.b64_blank_id)
           More.msg_blank_id "key-1" 0).
  - repeat split.
  - reflexivity.
Defined.

Lemma worker_timeout_witness :
  expires Sample.world_timeout [StdoutData "partial"] [Close None] /\
  fst (worker Sample.parse Sample.stringify Sample.uuid Sample.world_timeout
         (Sample.event_of Sample.b64_plain) (start 0)) =
    Threw (Error "cursor-agent exceeded 900s hard timeout") /\
  fetches (trace (snd (worker Sample.parse Sample.stringify Sample.uuid
                         Sample.world_timeout
                         (Sample.event_of Sample.b64_plain) (start 0)))) = [].
Proof.
  assert (Hexp : expires Sample.world_timeout [StdoutData "partial"]
                   [Close None]) by (split; reflexivity).
  split; [exact Hexp|].
  apply (worker_timeout Sample.parse Sample.stringify Sample.uuid
           Sample.world_timeout (Sample.event_of Sample.b64_plain)
           Sample.msg_plain "key-1" 0 [StdoutData "partial"] [Close None]).
  - repeat split.
  - exact Hexp.
  - reflexivity.
Defined.

Lemma worker_mkdir_fails_witness :
  fst (worker More.parse Sample.stringify Sample.uuid More.world_mkdir_denied
         (Sample.event_of More.b64_with_id) (start 0)) =
    Threw (SystemError "EACCES") /\
  trace (snd (worker More.parse Sample.stringify Sample.uuid
                More.world_mkdir_denied (Sample.event_of More.b64_with_id)
                (start 0))) =
    [Mkdir "/tmp/task-42" true].
Proof.
  apply (worker_mkdir_fails More.parse Sample.stringify Sample.uuid
           More.world_mkdir_denied (Sample.event_of More.b64_with_id)
           More.msg_with_id "key-1" 0 (SystemError "EACCES")).
  - repeat split.
  - reflexivity.
Defined.

Lemma worker_no_sink_for_other_types_witness :
  fst (worker More.parse Sample.stringify Sample.uuid Sample.world_ok
         (Sample.event_of More.b64_email) (start 0)) = Done tt /\
  fetches (trace (snd (worker More.parse Sample.stringify Sample.uuid
                         Sample.world_ok (Sample.event_of More.b64_email)
                         (start 0)))) = [].
Proof.
  apply (worker_no_sink_for_other_types More.parse Sample.stringify
           Sample.uuid Sample.world_ok (Sample.event_of More.b64_email)
           More.msg_email "key-1" 0 [StdoutData "ok"] []).
  - repeat split.
  - split; reflexivity.
  - right. exists "email"%string. repeat split. discriminate.
Defined.

Lemma worker_reply_type_not_a_string_witness :
  (exists what,
     fst (worker More.parse Sample.stringify Sample.uuid Sample.world_ok
            (Sample.event_of More.b64_numeric_type) (start 0)) =
       Threw (TypeError what)) /\
  fetches (trace (snd (worker More.parse Sample.stringify Sample.uuid
                         Sample.world_ok
                         (Sample.event_of More.b64_numeric_type)
                         (start 0)))) = [].
Proof.
  apply (worker_reply_type_not_a_string More.parse Sample.stringify
           Sample.uuid Sample.world_ok
           (Sample.event_of More.b64_numeric_type) More.msg_numeric_type
           "key-1" 0 [StdoutData "ok"] []).
  - repeat split.
  - split; reflexivity.
  - reflexivity.
  - intros kind. discriminate.
Defined.

Lemma worker_reply_without_targets_witness :
  (exists what,
     fst (worker More.parse Sample.stringify Sample.uuid Sample.world_ok
            (Sample.event_of More.b64_github_no_targets) (start 0)) =
       Threw (TypeError what)) /\
  fetches (trace (snd (worker More.parse Sample.stringify Sample.uuid
                         Sample.world_ok
                         (Sample.event_of More.b64_github_no_targets)
                         (start 0)))) = [].
Proof.
  apply (worker_reply_without_targets More.parse Sample.stringify Sample.uuid
           Sample.world_ok (Sample.event_of More.b64_github_no_targets)
           More.msg_github_no_targets "key-1" 0 [StdoutData "ok"] []
           "github.pr_review").
  - repeat split.
  - split; reflexivity.
  - reflexivity.
  - left. reflexivity.
  - reflexivity.
Defined.

Lemma worker_trace_shape_witness :
  conversion_throws (effective_deadline Sample.msg_github) = false /\
  (trace (snd (worker Sample.parse Sample.stringify Sample.uuid
                 Sample.world_refused (Sample.event_of Sample.b64_github)
                 (start 0))) = [] \/
   (exists p,
      trace (snd (worker Sample.parse Sample.stringify Sample.uuid
                    Sample.world_refused (Sample.event_of Sample.b64_github)
                    (start 0))) = [Mkdir p true]) \/
   exists p args opts d loop tail,
     trace (snd (worker Sample.parse Sample.stringify Sample.uuid
                   Sample.world_refused (Sample.event_of Sample.b64_github)
                   (start 0))) =
       Mkdir p true :: Spawn "cursor-agent" args opts :: SetTimeout d ::
       loop ++ tail /\
     forallb is_callback_call loop = true /\
     (kills loop = [] \/
      kills loop =
        ProcessKill (option_map Z.opp (proc_pid Sample.world_refused)) SIGKILL ::
        (if group_kill_throws Sample.world_refused
         then [ChildKill SIGKILL] else [])) /\
     (tail = [] \/ exists u r, tail = [Fetch u r])).
Proof.
  split; [reflexivity|].
  apply (worker_trace_shape Sample.parse Sample.stringify Sample.uuid
           Sample.world_refused (Sample.event_of Sample.b64_github) 0).
  intros msg Hd.
  assert (Hmsg : msg = Sample.msg_github).
  { assert (Hdec : decode Sample.parse (Sample.event_of Sample.b64_github) =
                   Done Sample.msg_github) by reflexivity.
    rewrite Hdec in Hd. now injection Hd. }
  rewrite Hmsg. reflexivity.
Defined.

Lemma worker_short_text_is_sent_whole_witness :
  exists before,
    trace (snd (worker Sample.parse Sample.stringify Sample.uuid
                  Sample.world_ok (Sample.event_of Sample.b64_slack)
                  (start 0))) =
      before ++
      [Fetch (VStr "https://hooks.slack.example/r/1")
         {| req_method := "POST";
            req_headers := [("Content-Type", "application/json")]%string;
            req_body := Sample.stringify (VObj [("text", VStr "ok")]) |}].
Proof.
  apply (worker_short_text_is_sent_whole Sample.parse Sample.stringify
           Sample.uuid Sample.world_ok (Sample.event_of Sample.b64_slack)
           Sample.msg_slack "key-1" 0 [StdoutData "ok"] []
           (VObj [("response_url", VStr "https://hooks.slack.example/r/1")])).
  - repeat split.
  - split; reflexivity.
  - reflexivity.
  - reflexivity.
  - reflexivity.
  - vm_compute. discriminate.
Defined.

Lemma worker_short_stderr_is_shown_whole_witness :
  fst (worker Sample.parse Sample.stringify Sample.uuid Sample.world_failed
         (Sample.event_of Sample.b64_plain) (start 0)) =
    Threw (Error "cursor failed: boom").
Proof.
  apply (worker_short_stderr_is_shown_whole Sample.parse Sample.stringify
           Sample.uuid Sample.world_failed (Sample.event_of Sample.b64_plain)
           Sample.msg_plain "key-1" 0 [StderrData "boom"] [] (Some 2%Z)).
  - repeat split.
  - split; reflexivity.
  - discriminate.
  - vm_compute. discriminate.
Defined.

Lemma router_rejects_stale_witness :
  Router.from_slack RouterSample.replayed_request = true /\
  Router.router RouterSample.parse Sample.stringify Sample.uuid
    RouterSample.number RouterSample.mac strlen RouterSample.setting_ok
    RouterSample.replayed_request (Router.fresh 0) =
    (Router.Ok tt,
     {| Router.log := [Router.Respond 401 (VStr "bad sig")];
        Router.uuids_drawn := 0 |}).
Proof.
  split; [reflexivity|].
  apply (router_rejects_stale RouterSample.parse Sample.stringify Sample.uuid
           RouterSample.number RouterSample.mac strlen RouterSample.setting_ok
           RouterSample.replayed_request (Router.fresh 0)
           "1699996400" 1699996400%Z).
  - reflexivity.
  - reflexivity.
  - reflexivity.
  - vm_compute. reflexivity.
Defined.

Lemma router_signature_of_other_length_witness :
  Router.router RouterSample.parse Sample.stringify Sample.uuid
    RouterSample.number RouterSample.mac strlen RouterSample.setting_ok
    RouterSample.short_signature_request (Router.fresh 0) =
    (Router.Fails Router.RangeErr, Router.fresh 0).
Proof.
  apply (router_signature_of_other_length RouterSample.parse Sample.stringify
           Sample.uuid RouterSample.number RouterSample.mac strlen
           RouterSample.setting_ok RouterSample.short_signature_request
           (Router.fresh 0) "s3cret" "v0=00").
  - reflexivity.
  - reflexivity.
  - reflexivity.
  - reflexivity.
  - vm_compute. discriminate.
Defined.

Lemma router_publishes_only_verified_witness :
  Router.from_slack RouterSample.signed_request = false \/
  Router.verifySlack Sample.stringify RouterSample.number RouterSample.mac
    strlen RouterSample.setting_ok RouterSample.signed_request =
    Router.Ok true.
Proof.
  apply (router_publishes_only_verified RouterSample.parse Sample.stringify
           Sample.uuid RouterSample.number RouterSample.mac strlen
           RouterSample.setting_ok RouterSample.signed_request 0
           "agents-main"
           (Router.build_message (VObj []) (VStr (Sample.uuid 0)))).
  vm_compute. left. reflexivity.
Defined.

Lemma router_publishes_unsigned_clients_witness :
  Router.header "x-slack-signature" RouterSample.plain_request = None /\
  Router.router RouterSample.parse Sample.stringify Sample.uuid
    RouterSample.number RouterSample.mac strlen RouterSample.setting_ok
    RouterSample.plain_request (Router.fresh 0) =
    (Router.Ok tt,
     {| Router.log :=
          [Router.Publish "agents-main"
             (Router.build_message RouterSample.review_payload
                (VStr (Sample.uuid 0)));
           Router.Respond 202
             (VObj [("ok", VBool true); ("id", VStr (Sample.uuid 0))])];
        Router.uuids_drawn := 1 |}).
Proof.
  split; [reflexivity|].
  apply (router_publishes_unsigned_clients RouterSample.parse Sample.stringify
           Sample.uuid RouterSample.number RouterSample.mac strlen
           RouterSample.setting_ok RouterSample.plain_request 0
           RouterSample.review_payload);
    reflexivity.
Defined.

Lemma routed_message_keeps_behaviour_witness :
  effective_deadline
    (Router.build_message RouterSample.review_payload (VStr "task-7")) =
    VNum 60 /\
  effective_name
    (Router.build_message RouterSample.review_payload (VStr "task-7")) =
    VStr "reviewer" /\
  fst (dispatch Sample.stringify Sample.world_refused
         (Router.build_message RouterSample.review_payload (VStr "task-7"))
         "LGTM" (start 0)) =
  fst (dispatch Sample.stringify Sample.world_refused
         RouterSample.review_payload "LGTM" (start 0)).
Proof.
  destruct (routed_message_keeps_behaviour RouterSample.review_payload
              (VStr "task-7") eq_refl) as (Hd & Hn & Hdispatch).
  split; [exact Hd|]. split; [exact Hn|].
  now rewrite (Hdispatch Sample.stringify Sample.world_refused
                 "LGTM"%string (start 0)).
Defined.

Lemma routed_correlation_id_witness :
  exists msg,
    In (Router.Publish "agents-main" msg)
      (Router.log
         (snd (Router.router RouterSample.parse Sample.stringify Sample.uuid
                 RouterSample.number RouterSample.mac strlen
                 RouterSample.setting_ok RouterSample.signed_request
                 (Router.fresh 0)))) /\
    prop msg "correlation_id" = VStr (Sample.uuid 0) /\
    correlationId_of Sample.uuid msg (start 5) =
      (Done (VStr (Sample.uuid 0)), start 5).
Proof.
  destruct (routed_correlation_id RouterSample.parse Sample.stringify
              Sample.uuid RouterSample.number RouterSample.mac strlen
              RouterSample.setting_ok RouterSample.signed_request 0
              (VObj [("ok", VBool true); ("id", VStr (Sample.uuid 0))])
              Instances.sample_uuid_not_empty)
    as (msg & Hin & Hc & Hworker).
  - vm_compute. right. left. reflexivity.
  - exists msg. split; [exact Hin|].
    injection Hc as Hid. split; [now rewrite <- Hid|].
    rewrite (Hworker Sample.uuid (start 5)), <- Hid. reflexivity.
Defined.

End ExtraInstances.
